(** * Text-to-video endpoint: the bounded polling loop of [api/Index.py]

    A shallow embedding of [generate_text_to_video]: one create call to the
    external video service, a [for] loop of at most
    [max_wait_seconds // 2] sleep-then-poll iterations, and the two
    [except] clauses that turn every exception into an [HTTPException].

    The external service is an oracle on an abstract world state; every
    outbound request and every sleep is logged in a trace, so that the
    number and the order of the calls can be stated. *)

From Stdlib Require Import ZArith List String Ascii Bool Lia PrimFloat DecimalString.
Import ListNotations.
Local Open Scope string_scope.
Local Open Scope Z_scope.
Local Open Scope list_scope.

(** ** Decoded JSON values (what [Response.json()] returns) *)

#[local] Set Warnings "-register-all".

Inductive json : Type :=
| JNull                                   (* None *)
| JBool (b : bool)
| JInt (z : Z)
| JFloat (f : float)
| JStr (s : string)
| JArr (l : list json)
| JObj (d : list (string * json)).        (* dict, first binding of a key wins *)

(** [needle in hay] on two Python strings: substring test. *)
Fixpoint str_contains (needle hay : string) : bool :=
  if prefix needle hay then true
  else match hay with
       | EmptyString => false
       | String _ hay' => str_contains needle hay'
       end.

Fixpoint dict_lookup (k : string) (d : list (string * json)) : option json :=
  match d with
  | [] => None
  | (k', v) :: d' => if String.eqb k k' then Some v else dict_lookup k d'
  end.

(** [d.get(k)] on a dict: [None] for an absent key. *)
Definition dict_get (d : list (string * json)) (k : string) : json :=
  match dict_lookup k d with
  | Some x => x
  | None => JNull
  end.

(** [v == s] for a decoded JSON value [v] and a [str] literal [s]. *)
Definition json_eq_str (v : json) (s : string) : bool :=
  match v with
  | JStr s' => String.eqb s' s
  | _ => false
  end.

(** Python truthiness, as used by [if not video_url]. *)
Definition truthy (v : json) : bool :=
  match v with
  | JNull => false
  | JBool b => b
  | JInt z => negb (z =? 0)
  | JFloat f => negb (PrimFloat.eqb f 0%float)
  | JStr s => negb (String.eqb s "")
  | JArr l => match l with [] => false | _ => true end
  | JObj d => match d with [] => false | _ => true end
  end.

(** ** Responses, exceptions, outcomes *)

(** An [httpx.Response]: [resp_json] is [None] when [.json()] raises. *)
Record Response : Type := mkResponse {
  status_code : Z;
  text : string;
  resp_json : option json
}.

(** The two operations of the handler that raise [TypeError]. *)
Inductive py_op : Type :=
| OpContains                                     (* key in v *)
| OpGetItem.                                     (* v[key] *)

(** An exception is named by its class and by what raised it; its message
    is [str(e)], which the interpreter and the libraries word. *)
Inductive exn : Type :=
| HTTPStatusError (response : Response)          (* httpx, from raise_for_status *)
| HTTPException (code : Z) (detail : string)     (* fastapi *)
| RequestError (msg : string)                    (* httpx transport failure in client.get *)
| JSONDecodeError (doc : string)                 (* Response.json() on the body text doc *)
| TypeError (op : py_op) (v : json)              (* v does not support op *)
| AttributeError (v : json) (attr : string)      (* v has no attribute attr *)
| KeyError (key : string).                       (* d[key] on a dict without key *)

(** What [await client.get(url)] gives: an exception or a response. *)
Inductive get_result : Type :=
| GetRaises (msg : string)
| GetResponse (r : Response).

Inductive event : Type :=
| ESleep (seconds : Z)                           (* await asyncio.sleep(seconds) *)
| EGet (url : string) (g : get_result).          (* await client.get(url) *)

(** A JSON response body of the endpoint. *)
Definition body : Type := list (string * json).

(** What the caller of the endpoint sees. *)
Inductive outcome : Type :=
| Return (b : body)
| Raise (code : Z) (detail : string).            (* HTTPException(status_code, detail) *)

(** ** Pydantic model *)

Record Text2VideoRequest : Type := mkRequest {
  prompt : string;
  max_wait_seconds : Z
}.

(** The fields of an incoming body, already typed; [None] is an absent key. *)
Record raw_request : Type := mkRaw {
  raw_prompt : option string;
  raw_max_wait_seconds : option Z
}.

(** [prompt] is [Field(...)], required; [max_wait_seconds] is
    [Field(default=60)]; neither field carries a constraint. *)
Definition Text2VideoRequest_validate (raw : raw_request) : option Text2VideoRequest :=
  match raw_prompt raw with
  | None => None
  | Some p =>
      Some {| prompt := p;
              max_wait_seconds := match raw_max_wait_seconds raw with
                                  | Some w => w
                                  | None => 60
                                  end |}
  end.

Definition VIDEO_API_BASE_URL : string := "https://yabes-api.pages.dev/api/ai/video/v2".

Definition status_url_prefix : string :=
  (VIDEO_API_BASE_URL ++ "?action=status&taskId=")%string.

(** A status call is a GET on a URL of the [action=status] form. *)
Definition is_status_call (e : event) : bool :=
  match e with
  | EGet u _ => prefix status_url_prefix u
  | ESleep _ => false
  end.

Definition count_status (tr : list event) : nat := List.length (filter is_status_call tr).

Definition is_sleep (e : event) : bool :=
  match e with
  | ESleep _ => true
  | EGet _ _ => false
  end.

Definition count_sleeps (tr : list event) : nat := List.length (filter is_sleep tr).

(** The GETs that are not status calls. *)
Definition count_other_gets (tr : list event) : nat :=
  List.length (filter (fun e => negb (is_sleep e) && negb (is_status_call e)) tr).

(** The seconds an execution spends in [asyncio.sleep]. *)
Definition total_sleep (tr : list event) : Z :=
  fold_right (fun e acc => match e with
                           | ESleep seconds => seconds + acc
                           | EGet _ _ => acc
                           end) 0 tr.

Definition completed_body (video_url : json) : body :=
  [("status", JStr "completed"); ("video_url", video_url)].

Definition processing_body : body :=
  [("status", JStr "processing");
   ("message", JStr "Video is still generating. Try again later.")].

(** ** Exceptions

    The steps that touch neither the network nor the clock run in the
    exception monad [result]. *)

Inductive result (A : Type) : Type :=
| Raised (e : exn)
| Value (a : A).
Arguments Raised {A} e.
Arguments Value {A} a.

Definition rbind {A B} (m : result A) (k : A -> result B) : result B :=
  match m with
  | Raised e => Raised e
  | Value a => k a
  end.

Notation "'let?' x ':=' m 'in' k" := (rbind m (fun x => k))
  (at level 10, x name, m at level 99, k at level 200).

(** [resp.json()] *)
Definition json_of (r : Response) : result json :=
  match resp_json r with
  | Some v => Value v
  | None => Raised (JSONDecodeError (text r))
  end.

(** [key in v] *)
Definition py_in (key : string) (v : json) : result bool :=
  match v with
  | JObj d => Value (match dict_lookup key d with Some _ => true | None => false end)
  | JArr l => Value (existsb (fun x => json_eq_str x key) l)
  | JStr s => Value (str_contains key s)
  | _ => Raised (TypeError OpContains v)
  end.

(** [v[key]] for a [str] key *)
Definition py_getitem (v : json) (key : string) : result json :=
  match v with
  | JObj d => match dict_lookup key d with
              | Some x => Value x
              | None => Raised (KeyError key)
              end
  | _ => Raised (TypeError OpGetItem v)
  end.

(** [v.get(key)] *)
Definition py_get (v : json) (key : string) : result json :=
  match v with
  | JObj d => Value (dict_get d key)
  | _ => Raised (AttributeError v "get")
  end.

(** The task identifier a create response carries, when its body is a
    JSON object with the key [taskId]. *)
Definition task_identifier (r : Response) : option json :=
  match resp_json r with
  | Some (JObj d) => dict_lookup "taskId" d
  | _ => None
  end.

(** ** The handler

    The handler itself runs in a state-and-exception monad: the state is
    the world of the external service together with the trace of the
    effects so far. *)

Section Handler.

(** The external collaborator and the library functions the handler
    relies on. *)
Variable World : Type.
(** the service's answer to a GET, and its next state *)
Variable world_get : string -> World -> get_result * World.
(** the passing of [seconds] of time *)
Variable world_sleep : Z -> World -> World.
(** [Response.is_success], the test behind [raise_for_status] *)
Variable is_success : Z -> bool.
(** [str(v)], as the f-string renders a decoded JSON value *)
Variable py_str : json -> string.
(** [str(e)] on an exception *)
Variable exn_str : exn -> string.

Definition St : Type := (World * list event)%type.

Definition M (A : Type) : Type := St -> result A * St.

Definition ret {A} (a : A) : M A := fun st => (Value a, st).

Definition lift {A} (r : result A) : M A := fun st => (r, st).

Definition bind {A B} (m : M A) (k : A -> M B) : M B :=
  fun st =>
    match m st with
    | (Raised e, st') => (Raised e, st')
    | (Value a, st') => k a st'
    end.

Notation "x <- m ;; k" := (bind m (fun x => k))
  (at level 61, m at next level, right associativity).
Notation "m ;;; k" := (bind m (fun _ => k))
  (at level 61, right associativity).

(** [await asyncio.sleep(seconds)] *)
Definition sleep (seconds : Z) : M unit :=
  fun '(w, tr) => (Value tt, (world_sleep seconds w, tr ++ [ESleep seconds])).

(** [await client.get(url)] *)
Definition client_get (url : string) : M Response :=
  fun '(w, tr) =>
    let '(g, w') := world_get url w in
    let st' := (w', tr ++ [EGet url g]) in
    match g with
    | GetRaises msg => (Raised (RequestError msg), st')
    | GetResponse r => (Value r, st')
    end.

(** [resp.raise_for_status()] *)
Definition raise_for_status (r : Response) : result unit :=
  if is_success (status_code r) then Value tt else Raised (HTTPStatusError r).

Definition create_url (p : string) : string :=
  (VIDEO_API_BASE_URL ++ "?action=create&prompt=" ++ p)%string.

Definition status_url (task_id : json) : string :=
  (VIDEO_API_BASE_URL ++ "?action=status&taskId=" ++ py_str task_id)%string.

(** From [create_resp.raise_for_status()] to [task_id = create_data["taskId"]]. *)
Definition create_task_id (create_resp : Response) : result json :=
  let? _ := raise_for_status create_resp in
  let? create_data := json_of create_resp in
  let? present := py_in "taskId" create_data in
  if negb present then
    Raised (HTTPException 500 "Failed to create video task")
  else
    py_getitem create_data "taskId".

(** The part of a loop iteration that follows the GET; [Some b] is
    [return b], [None] falls through to the next iteration. *)
Definition check_status (status_resp : Response) : result (option body) :=
  let? _ := raise_for_status status_resp in
  let? status_data := json_of status_resp in
  let? st := py_get status_data "status" in
  if json_eq_str st "completed" then
    let? video_url := py_get status_data "videoUrl" in
    if negb (truthy video_url) then
      Raised (HTTPException 500 "Video URL missing")
    else Value (Some (completed_body video_url))
  else Value None.

(** [for _ in range(attempts): ...] *)
Fixpoint poll_loop (url : string) (interval : Z) (attempts : nat)
  : M (option body) :=
  match attempts with
  | O => ret None
  | S n =>
      sleep interval ;;;
      status_resp <- client_get url ;;
      r <- lift (check_status status_resp) ;;
      match r with
      | Some b => ret (Some b)
      | None => poll_loop url interval n
      end
  end.

(** The body of the [try] block. *)
Definition try_block (request_data : Text2VideoRequest) : M body :=
  create_resp <- client_get (create_url (prompt request_data)) ;;
  task_id <- lift (create_task_id create_resp) ;;
  let interval := 2 in
  let attempts := max_wait_seconds request_data / interval in
  r <- poll_loop (status_url task_id) interval (Z.to_nat attempts) ;;
  match r with
  | Some b => ret b
  | None => ret processing_body
  end.

(** The two [except] clauses. *)
Definition handle (e : exn) : outcome :=
  match e with
  | HTTPStatusError r =>
      Raise (status_code r) ("External API error: " ++ text r)%string
  | _ => Raise 500 ("Internal error: " ++ exn_str e)%string
  end.

(** The endpoint: the outcome seen by the caller and the trace of the
    effects, from an initial world. *)
Definition generate_text_to_video (request_data : Text2VideoRequest) (w : World)
  : outcome * list event :=
  match try_block request_data (w, []) with
  | (Raised e, (_, tr)) => (handle e, tr)
  | (Value b, (_, tr)) => (Return b, tr)
  end.

(** *** What one execution looks like

    The trace of an execution is the create call followed by a run of
    sleep-then-poll pairs. [verdict] is what an iteration makes of the
    answer to its poll; [poll_run n gs res] says that the loop, started
    with [n] attempts, consumed the answers [gs] and ended in [res]. *)

Definition verdict (g : get_result) : result (option body) :=
  match g with
  | GetRaises msg => Raised (RequestError msg)
  | GetResponse r => check_status r
  end.

Definition create_verdict (g : get_result) : result json :=
  match g with
  | GetRaises msg => Raised (RequestError msg)
  | GetResponse r => create_task_id r
  end.

Definition polls (url : string) (interval : Z) (gs : list get_result) : list event :=
  flat_map (fun g => [ESleep interval; EGet url g]) gs.

Inductive poll_run : nat -> list get_result -> result (option body) -> Prop :=
| run_exhausted : poll_run O [] (Value None)
| run_continue n g gs res :
    verdict g = Value None -> poll_run n gs res -> poll_run (S n) (g :: gs) res
| run_stop n g res :
    verdict g = res -> res <> Value None -> poll_run (S n) [g] res.

Definition finish (res : result (option body)) : outcome :=
  match res with
  | Raised e => handle e
  | Value (Some b) => Return b
  | Value None => Return processing_body
  end.

(** An answer that lets the loop go on. *)
Definition pending (g : get_result) : Prop := verdict g = Value None.

(** An exception other than [HTTPStatusError] reaches the caller as a 500. *)
Definition internal (e : exn) : Prop :=
  handle e = Raise 500 ("Internal error: " ++ exn_str e)%string.

(** A well-formed status snapshot whose status is not ["completed"]. *)
Definition not_completed_snapshot (g : get_result) : Prop :=
  exists r d,
    g = GetResponse r
    /\ is_success (status_code r) = true
    /\ resp_json r = Some (JObj d)
    /\ dict_get d "status" <> JStr "completed".

(** One iteration of the loop, unfolded. *)
Lemma poll_loop_step url interval n w tr :
  poll_loop url interval (S n) (w, tr) =
  let g := fst (world_get url (world_sleep interval w)) in
  let w1 := snd (world_get url (world_sleep interval w)) in
  let tr1 := tr ++ [ESleep interval; EGet url g] in
  match verdict g with
  | Value None => poll_loop url interval n (w1, tr1)
  | res => (res, (w1, tr1))
  end.
Proof.
  cbn [poll_loop]. unfold bind, sleep, client_get, lift. cbv zeta.
  destruct (world_get url (world_sleep interval w)) as [g w1].
  cbn [fst snd]. rewrite <- app_assoc. cbn [app].
  destruct g as [msg | r]; cbn [verdict]; [reflexivity|].
  destruct (check_status r) as [e | [b | ]]; reflexivity.
Qed.

Lemma poll_loop_run url interval n :
  forall w tr, exists gs w',
    poll_run n gs (fst (poll_loop url interval n (w, tr)))
    /\ snd (poll_loop url interval n (w, tr)) = (w', tr ++ polls url interval gs).
Proof.
  induction n as [|n IH]; intros w tr.
  - exists [], w. cbn. rewrite app_nil_r. split; [constructor | reflexivity].
  - rewrite poll_loop_step. cbv zeta.
    destruct (world_get url (world_sleep interval w)) as [g w1].
    cbn [fst snd].
    destruct (verdict g) as [e | [b | ]] eqn:Hv.
    + exists [g], w1. cbn. split; [apply run_stop; [exact Hv | discriminate] | reflexivity].
    + exists [g], w1. cbn. split; [apply run_stop; [exact Hv | discriminate] | reflexivity].
    + destruct (IH w1 (tr ++ [ESleep interval; EGet url g])) as (gs & w' & Hrun & Htr).
      exists (g :: gs), w'. split.
      * apply run_continue; [exact Hv | exact Hrun].
      * rewrite Htr. cbn. rewrite <- app_assoc. reflexivity.
Qed.

(** The shape of every execution of the endpoint. *)
Lemma generate_run (request_data : Text2VideoRequest) (w : World) :
  let c := fst (world_get (create_url (prompt request_data)) w) in
  let create_event := EGet (create_url (prompt request_data)) c in
  match create_verdict c with
  | Raised e =>
      generate_text_to_video request_data w = (handle e, [create_event])
  | Value task_id =>
      exists gs res,
        poll_run (Z.to_nat (max_wait_seconds request_data / 2)) gs res
        /\ generate_text_to_video request_data w
           = (finish res, create_event :: polls (status_url task_id) 2 gs)
  end.
Proof.
  cbv zeta. unfold generate_text_to_video, try_block, bind, client_get, lift.
  destruct (world_get (create_url (prompt request_data)) w) as [c w1].
  cbn [fst app]. destruct c as [msg | r]; cbn [create_verdict]; [reflexivity|].
  destruct (create_task_id r) as [e | task_id]; [reflexivity|].
  destruct (poll_loop_run (status_url task_id) 2
              (Z.to_nat (max_wait_seconds request_data / 2)) w1
              [EGet (create_url (prompt request_data)) (GetResponse r)])
    as (gs & w' & Hrun & Htr).
  exists gs. eexists. split; [exact Hrun|].
  destruct (poll_loop _ _ _ _) as [res st'].
  cbn [fst snd] in *. subst st'.
  destruct res as [e | [b | ]]; reflexivity.
Qed.

(** *** Facts about runs of the loop *)

Lemma poll_run_length n gs res :
  poll_run n gs res -> (List.length gs <= n)%nat.
Proof.
  induction 1; cbn; lia.
Qed.

Lemma poll_run_exhausted n gs :
  poll_run n gs (Value None) -> List.length gs = n /\ Forall pending gs.
Proof.
  intros H. remember (Value None) as res eqn:Hres.
  induction H as [| n g gs res Hg Hrun IH | n g res Hg Hne].
  - split; [reflexivity | constructor].
  - destruct (IH Hres) as [Hlen Hall]. split.
    + cbn. now rewrite Hlen.
    + constructor; assumption.
  - contradiction.
Qed.

(** An answer that is not pending is the last one of its run, and decides it. *)
Lemma poll_run_decisive n gs res :
  poll_run n gs res ->
  forall pre g post, gs = pre ++ g :: post -> ~ pending g ->
    post = [] /\ res = verdict g.
Proof.
  induction 1 as [| n g0 gs res Hg Hrun IH | n g0 res Hg Hne];
    intros pre g post Heq Hnp.
  - destruct pre; discriminate.
  - destruct pre as [| x pre]; cbn in Heq; injection Heq as -> Heq.
    + contradiction.
    + eapply IH; eassumption.
  - destruct pre as [| x pre]; cbn in Heq.
    + injection Heq as -> <-. split; [reflexivity | now symmetry].
    + injection Heq as _ Heq. destruct pre; discriminate.
Qed.

Lemma poll_run_all_pending n gs res :
  poll_run n gs res -> Forall pending gs ->
  res = Value None /\ List.length gs = n.
Proof.
  induction 1 as [| n g gs res Hg Hrun IH | n g res Hg Hne]; intros Hall.
  - split; reflexivity.
  - inversion Hall; subst. destruct IH as [-> <-]; [assumption|].
    split; reflexivity.
  - inversion Hall as [| ? ? Hp _]; subst. unfold pending in Hp. contradiction.
Qed.

(** *** Facts about traces *)

Lemma prefix_append (s t : string) : prefix s (s ++ t)%string = true.
Proof.
  induction s as [| a s IH]; cbn.
  - destruct t; reflexivity.
  - destruct (ascii_dec a a); [exact IH | contradiction].
Qed.

Lemma create_url_not_status p g :
  is_status_call (EGet (create_url p) g) = false.
Proof. reflexivity. Qed.

Lemma status_url_is_status task_id g :
  is_status_call (EGet (status_url task_id) g) = true.
Proof.
  change (status_url task_id) with (status_url_prefix ++ py_str task_id)%string.
  apply prefix_append.
Qed.

Lemma count_status_polls task_id interval gs :
  count_status (polls (status_url task_id) interval gs) = List.length gs.
Proof.
  unfold count_status. induction gs as [| g gs IH]; [reflexivity|].
  cbn [polls flat_map app filter is_status_call].
  fold (is_status_call (EGet (status_url task_id) g)).
  rewrite status_url_is_status. cbn [List.length]. f_equal. exact IH.
Qed.

(** Where a GET sits in a run of sleep-then-poll pairs. *)
Lemma polls_split url interval gs :
  forall pre u g post,
    polls url interval gs = pre ++ EGet u g :: post ->
    exists gpre gpost,
      gs = gpre ++ g :: gpost
      /\ pre = polls url interval gpre ++ [ESleep interval]
      /\ post = polls url interval gpost
      /\ u = url.
Proof.
  induction gs as [| g0 gs IH]; intros pre u g post Heq.
  - destruct pre; discriminate.
  - cbn in Heq. destruct pre as [| e1 [| e2 pre]]; cbn in Heq.
    + discriminate.
    + injection Heq as <- <- <- <-.
      exists [], gs. repeat split; reflexivity.
    + injection Heq as <- <- Heq.
      destruct (IH _ _ _ _ Heq) as (gpre & gpost & -> & -> & -> & ->).
      exists (g0 :: gpre), gpost. repeat split; reflexivity.
Qed.

(** *** What the pure steps make of a response *)

Lemma check_status_error r :
  is_success (status_code r) = false ->
  check_status r = Raised (HTTPStatusError r).
Proof.
  intros H. unfold check_status, raise_for_status. now rewrite H.
Qed.

Lemma create_task_id_error r :
  is_success (status_code r) = false ->
  create_task_id r = Raised (HTTPStatusError r).
Proof.
  intros H. unfold create_task_id, raise_for_status. now rewrite H.
Qed.

Lemma check_status_snapshot r d :
  is_success (status_code r) = true ->
  resp_json r = Some (JObj d) ->
  check_status r =
    if json_eq_str (dict_get d "status") "completed" then
      if truthy (dict_get d "videoUrl")
      then Value (Some (completed_body (dict_get d "videoUrl")))
      else Raised (HTTPException 500 "Video URL missing")
    else Value None.
Proof.
  intros Hs Hj. unfold check_status, raise_for_status, json_of.
  rewrite Hs, Hj. cbn [rbind py_get].
  destruct (json_eq_str _ _); [|reflexivity].
  cbn [rbind]. now destruct (truthy _).
Qed.

Lemma json_eq_str_true v s : json_eq_str v s = true <-> v = JStr s.
Proof.
  destruct v; cbn; try (split; [discriminate | discriminate]).
  rewrite String.eqb_eq. split; [now intros -> | now intros [= ->]].
Qed.

Lemma json_eq_str_false v s : json_eq_str v s = false <-> v <> JStr s.
Proof.
  rewrite <- json_eq_str_true. destruct (json_eq_str v s); split;
    congruence.
Qed.

Lemma create_task_id_present r t :
  is_success (status_code r) = true ->
  task_identifier r = Some t ->
  create_task_id r = Value t.
Proof.
  unfold task_identifier, create_task_id, raise_for_status, json_of.
  intros -> H. destruct (resp_json r) as [[| | | | | |d]|]; try discriminate.
  cbn. now rewrite H.
Qed.

Lemma create_task_id_absent r :
  is_success (status_code r) = true ->
  task_identifier r = None ->
  exists e, create_task_id r = Raised e /\ internal e.
Proof.
  unfold task_identifier, create_task_id, raise_for_status, json_of.
  intros -> H.
  destruct (resp_json r) as [[| b | z | f | s0 | l | d]|]; cbn;
    try (eexists; split; [reflexivity | reflexivity]).
  - destruct (str_contains _ _); cbn; eexists; split; reflexivity.
  - destruct (existsb _ _); cbn; eexists; split; reflexivity.
  - rewrite H. cbn. eexists; split; reflexivity.
Qed.

(** *** Where a GET sits in an execution *)

(** The first event of every execution is the create call. *)
Lemma generate_first (request_data : Text2VideoRequest) (w : World) :
  exists c rest,
    snd (generate_text_to_video request_data w)
    = EGet (create_url (prompt request_data)) c :: rest
    /\ match create_verdict c with
       | Raised e =>
           generate_text_to_video request_data w
           = (handle e, [EGet (create_url (prompt request_data)) c])
       | Value task_id =>
           exists gs res,
             poll_run (Z.to_nat (max_wait_seconds request_data / 2)) gs res
             /\ generate_text_to_video request_data w
                = (finish res,
                   EGet (create_url (prompt request_data)) c
                   :: polls (status_url task_id) 2 gs)
       end.
Proof.
  pose proof (generate_run request_data w) as H. cbv zeta in H.
  set (c := fst (world_get (create_url (prompt request_data)) w)) in *.
  exists c. destruct (create_verdict c) as [e | task_id].
  - exists []. rewrite H. split; reflexivity.
  - destruct H as (gs & res & Hrun & Hgen).
    exists (polls (status_url task_id) 2 gs). rewrite Hgen.
    split; [reflexivity|]. exists gs, res. split; [assumption | reflexivity].
Qed.

(** A status call whose answer is not pending ends the execution. *)
Lemma status_event_decisive request_data w pre u g post :
  snd (generate_text_to_video request_data w) = pre ++ EGet u g :: post ->
  is_status_call (EGet u g) = true ->
  ~ pending g ->
  fst (generate_text_to_video request_data w) = finish (verdict g) /\ post = [].
Proof.
  intros Htr Hst Hnp.
  destruct (generate_first request_data w) as (c & rest & _ & H).
  destruct (create_verdict c) as [e | task_id].
  - rewrite H in Htr. cbn [snd] in Htr.
    destruct pre as [| x [| y pre]]; try discriminate.
    injection Htr as <- <- <-. now rewrite create_url_not_status in Hst.
  - destruct H as (gs & res & Hrun & Hgen). rewrite Hgen in *. cbn [fst snd] in *.
    destruct pre as [| x pre]; cbn [app] in Htr.
    + injection Htr as <- <- <-. now rewrite create_url_not_status in Hst.
    + injection Htr as _ Htr.
      destruct (polls_split _ _ _ _ _ _ _ Htr) as (gpre & gpost & Hgs & _ & -> & _).
      destruct (poll_run_decisive _ _ _ Hrun _ _ _ Hgs Hnp) as [-> ->].
      split; reflexivity.
Qed.

(** A create call that raises ends the execution. *)
Lemma create_event_decisive request_data w u g rest e :
  snd (generate_text_to_video request_data w) = EGet u g :: rest ->
  create_verdict g = Raised e ->
  generate_text_to_video request_data w = (handle e, [EGet u g]).
Proof.
  intros Htr Hv.
  destruct (generate_first request_data w) as (c & rest' & Hc & H).
  rewrite Hc in Htr. injection Htr as <- <- <-.
  now rewrite Hv in H.
Qed.

(** A create call that yields a task identifier is followed by a run of the loop. *)
Lemma create_event_polls request_data w u g rest task_id :
  snd (generate_text_to_video request_data w) = EGet u g :: rest ->
  create_verdict g = Value task_id ->
  exists gs res,
    poll_run (Z.to_nat (max_wait_seconds request_data / 2)) gs res
    /\ rest = polls (status_url task_id) 2 gs
    /\ fst (generate_text_to_video request_data w) = finish res.
Proof.
  intros Htr Hv.
  destruct (generate_first request_data w) as (c & rest' & Hc & H).
  rewrite Hc in Htr. injection Htr as <- <- <-.
  rewrite Hv in H. destruct H as (gs & res & Hrun & Hgen).
  exists gs, res. rewrite Hgen in Hc. cbn [snd] in Hc.
  injection Hc as <-. rewrite Hgen. repeat split; assumption || reflexivity.
Qed.

Lemma check_status_some r b :
  check_status r = Value (Some b) -> exists v, b = completed_body v.
Proof.
  unfold check_status, raise_for_status, json_of.
  destruct (is_success _); [|discriminate].
  destruct (resp_json r) as [v|]; [|discriminate]. cbn [rbind].
  destruct (py_get v "status") as [e | st]; [discriminate|]. cbn [rbind].
  destruct (json_eq_str st "completed"); [|discriminate].
  destruct (py_get v "videoUrl") as [e | url]; [discriminate|]. cbn [rbind].
  destruct (truthy url); cbn; [|discriminate].
  intros [= <-]. now exists url.
Qed.

Lemma poll_run_returns n gs b :
  poll_run n gs (Value (Some b)) -> exists v, b = completed_body v.
Proof.
  intros H. remember (Value (Some b)) as res eqn:Hres.
  induction H as [| n g gs res Hg Hrun IH | n g res Hg Hne].
  - discriminate.
  - now apply IH.
  - subst res. destruct g as [msg | r]; cbn in Hg; [discriminate|].
    now apply check_status_some with r.
Qed.

Lemma finish_processing n gs res :
  poll_run n gs res -> finish res = Return processing_body -> res = Value None.
Proof.
  intros Hrun Hf. destruct res as [e | [b | ]]; [| | reflexivity].
  - destruct e; discriminate.
  - destruct (poll_run_returns _ _ _ Hrun) as [v ->]. discriminate.
Qed.

Lemma count_status_cons e tr :
  count_status (e :: tr)
  = if is_status_call e then S (count_status tr) else count_status tr.
Proof.
  unfold count_status. cbn [filter]. now destruct (is_status_call e).
Qed.

Lemma in_polls url interval g gs :
  In g gs -> In (EGet url g) (polls url interval gs).
Proof.
  induction gs as [| g0 gs IH]; intros Hin; [contradiction|].
  cbn. destruct Hin as [-> | Hin]; [right; now left | right; right; auto].
Qed.

Lemma not_completed_pending g : not_completed_snapshot g -> pending g.
Proof.
  intros (r & d & -> & Hs & Hj & Hne). unfold pending. cbn [verdict].
  rewrite (check_status_snapshot r d Hs Hj).
  apply json_eq_str_false in Hne. now rewrite Hne.
Qed.

(** ** The claims *)

(** C1. Every execution issues at most [max_wait_seconds // 2] status
    calls (none when the quotient is not positive, as [range] is then
    empty; for a budget that is not negative the count is bounded by the
    quotient itself), each status call comes right after a sleep of the
    poll interval of 2, and an execution that ends in the still-processing
    answer has issued exactly that many. *)
Theorem status_calls_bounded (request_data : Text2VideoRequest) (w : World) :
  let run := generate_text_to_video request_data w in
  (count_status (snd run) <= Z.to_nat (max_wait_seconds request_data / 2))%nat
  /\ (forall pre e post,
        snd run = pre ++ e :: post -> is_status_call e = true ->
        exists pre', pre = pre' ++ [ESleep 2])
  /\ (fst run = Return processing_body ->
      count_status (snd run) = Z.to_nat (max_wait_seconds request_data / 2))
  /\ (0 <= max_wait_seconds request_data ->
      Z.of_nat (count_status (snd run)) <= max_wait_seconds request_data / 2).
Proof.
  cbv zeta.
  enough (Hmain :
    (count_status (snd (generate_text_to_video request_data w))
     <= Z.to_nat (max_wait_seconds request_data / 2))%nat
    /\ (forall pre e post,
          snd (generate_text_to_video request_data w) = pre ++ e :: post ->
          is_status_call e = true ->
          exists pre', pre = pre' ++ [ESleep 2])
    /\ (fst (generate_text_to_video request_data w) = Return processing_body ->
        count_status (snd (generate_text_to_video request_data w))
        = Z.to_nat (max_wait_seconds request_data / 2))).
  { destruct Hmain as (Hle & Hpre & Hex). repeat split; try assumption.
    intros Hw. pose proof (Z.div_pos _ 2 Hw ltac:(lia)). lia. }
  destruct (generate_first request_data w) as (c & rest & _ & H).
  destruct (create_verdict c) as [e | task_id].
  - rewrite H. cbn [fst snd]. rewrite count_status_cons, create_url_not_status.
    repeat split.
    + cbn. lia.
    + intros pre e0 post Heq Hst.
      destruct pre as [| x [| y pre]]; try discriminate.
      injection Heq as <- <-. now rewrite create_url_not_status in Hst.
    + destruct e; discriminate.
  - destruct H as (gs & res & Hrun & ->). cbn [fst snd].
    rewrite count_status_cons, create_url_not_status, count_status_polls.
    repeat split.
    + now apply poll_run_length with res.
    + intros pre e0 post Heq Hst.
      destruct pre as [| x pre]; cbn [app] in Heq.
      * injection Heq as <- <-. now rewrite create_url_not_status in Hst.
      * injection Heq as <- Heq. destruct e0 as [secs | u g]; [discriminate|].
        destruct (polls_split _ _ _ _ _ _ _ Heq) as (gpre & gpost & _ & -> & _).
        now exists (EGet (create_url (prompt request_data)) c
                    :: polls (status_url task_id) 2 gpre).
    + intros Hf. apply (finish_processing _ _ _ Hrun) in Hf. subst res.
      now apply poll_run_exhausted in Hrun.
Qed.

(** C2. In every execution in which a status call answers with status
    ["completed"] and a non-empty video URL, the endpoint returns the
    completed body carrying that URL, and that poll is the last effect of
    the execution: no status call, and no sleep, follows it. *)
Theorem completed_returns_immediately
    (request_data : Text2VideoRequest) (w : World)
    (pre post : list event) (u : string) (r : Response)
    (d : list (string * json)) (v : string) :
  let run := generate_text_to_video request_data w in
  snd run = pre ++ EGet u (GetResponse r) :: post ->
  is_status_call (EGet u (GetResponse r)) = true ->
  is_success (status_code r) = true ->
  resp_json r = Some (JObj d) ->
  dict_get d "status" = JStr "completed" ->
  dict_get d "videoUrl" = JStr v ->
  v <> ""%string ->
  fst run = Return [("status", JStr "completed"); ("video_url", JStr v)]
  /\ post = [].
Proof.
  cbv zeta. intros Htr Hst Hs Hj Hc Hv Hne.
  assert (Hver : verdict (GetResponse r) = Value (Some (completed_body (JStr v)))).
  { cbn [verdict]. rewrite (check_status_snapshot r d Hs Hj), Hc, Hv.
    cbn. apply String.eqb_neq in Hne. now rewrite Hne. }
  destruct (status_event_decisive _ _ _ _ _ _ Htr Hst) as [Hf ->].
  - unfold pending. rewrite Hver. discriminate.
  - rewrite Hf, Hver. split; reflexivity.
Qed.

(** C3. When the create call is answered with a success status but the
    body carries no task identifier, the endpoint fails with status 500
    and the create call is the only effect: no status call is issued. *)
Theorem missing_task_id_fails
    (request_data : Text2VideoRequest) (w : World)
    (u : string) (r : Response) (rest : list event) :
  let run := generate_text_to_video request_data w in
  snd run = EGet u (GetResponse r) :: rest ->
  is_success (status_code r) = true ->
  task_identifier r = None ->
  (exists detail, fst run = Raise 500 detail)
  /\ rest = []
  /\ count_status (snd run) = O.
Proof.
  cbv zeta. intros Htr Hs Hid.
  destruct (create_task_id_absent r Hs Hid) as (e & He & Hint).
  pose proof (create_event_decisive _ _ _ _ _ e Htr He) as Hgen.
  destruct (generate_first request_data w) as (c & rest' & Hc & _).
  rewrite Htr in Hc. injection Hc as -> _ _.
  rewrite Hgen in *. cbn [fst snd] in *. injection Htr as <-.
  split; [eexists; exact Hint|]. split; [reflexivity|].
  now rewrite count_status_cons, create_url_not_status.
Qed.

(** C4. In every execution in which a GET, the create call or a status
    call, is answered with a non-success status, the endpoint fails with
    that very status code and with the external body in the detail, and
    nothing follows that call. *)
Theorem external_error_mirrored
    (request_data : Text2VideoRequest) (w : World)
    (pre post : list event) (u : string) (r : Response) :
  let run := generate_text_to_video request_data w in
  snd run = pre ++ EGet u (GetResponse r) :: post ->
  is_success (status_code r) = false ->
  fst run = Raise (status_code r) ("External API error: " ++ text r)%string
  /\ post = [].
Proof.
  cbv zeta. intros Htr Hs.
  destruct pre as [| x pre].
  - cbn [app] in Htr.
    pose proof (create_event_decisive _ _ _ _ _ _ Htr (create_task_id_error r Hs))
      as Hgen.
    rewrite Hgen in *. cbn [fst snd] in *. injection Htr as <-.
    split; reflexivity.
  - destruct (generate_first request_data w) as (c & rest & Hc & H).
    assert (Hst : is_status_call (EGet u (GetResponse r)) = true).
    { destruct (create_verdict c) as [e | task_id].
      - rewrite H in Htr. cbn [snd app] in Htr. injection Htr as _ Htr.
        destruct pre; discriminate.
      - destruct H as (gs & res & _ & Hgen). rewrite Hgen in Htr.
        cbn [snd app] in Htr. injection Htr as _ Htr.
        destruct (polls_split _ _ _ _ _ _ _ Htr) as (_ & _ & _ & _ & _ & ->).
        apply status_url_is_status. }
    destruct (status_event_decisive _ _ _ _ _ _ Htr Hst) as [Hf ->].
    + unfold pending. cbn [verdict]. rewrite (check_status_error r Hs). discriminate.
    + rewrite Hf. cbn [verdict]. rewrite (check_status_error r Hs).
      split; reflexivity.
Qed.

(** C5. In every execution in which a status call answers with status
    ["completed"] while the video URL is missing or empty, the endpoint
    fails with status 500 and returns no body. *)
Theorem completed_without_url_fails
    (request_data : Text2VideoRequest) (w : World)
    (pre post : list event) (u : string) (r : Response)
    (d : list (string * json)) :
  let run := generate_text_to_video request_data w in
  snd run = pre ++ EGet u (GetResponse r) :: post ->
  is_status_call (EGet u (GetResponse r)) = true ->
  is_success (status_code r) = true ->
  resp_json r = Some (JObj d) ->
  dict_get d "status" = JStr "completed" ->
  dict_lookup "videoUrl" d = None \/ dict_lookup "videoUrl" d = Some (JStr "") ->
  (exists detail, fst run = Raise 500 detail)
  /\ (forall b, fst run <> Return b).
Proof.
  cbv zeta. intros Htr Hst Hs Hj Hc Hurl.
  assert (Hver : verdict (GetResponse r)
                 = Raised (HTTPException 500 "Video URL missing")).
  { cbn [verdict]. rewrite (check_status_snapshot r d Hs Hj), Hc.
    unfold dict_get. now destruct Hurl as [-> | ->]. }
  destruct (status_event_decisive _ _ _ _ _ _ Htr Hst) as [Hf _].
  - unfold pending. rewrite Hver. discriminate.
  - rewrite Hf, Hver. cbn [finish handle]. split.
    + eexists. reflexivity.
    + intros b. discriminate.
Qed.

(** C6. When the create call yields a task identifier and every status
    call of the execution answers with a well-formed snapshot whose status
    is not ["completed"], the endpoint returns the still-processing body,
    after exactly [max_wait_seconds // 2] status calls. *)
Theorem exhausted_polls_still_processing
    (request_data : Text2VideoRequest) (w : World)
    (u : string) (c : Response) (rest : list event) (task_id : json) :
  let run := generate_text_to_video request_data w in
  snd run = EGet u (GetResponse c) :: rest ->
  is_success (status_code c) = true ->
  task_identifier c = Some task_id ->
  (forall u' g, In (EGet u' g) rest -> not_completed_snapshot g) ->
  fst run
  = Return [("status", JStr "processing");
            ("message", JStr "Video is still generating. Try again later.")]
  /\ count_status (snd run) = Z.to_nat (max_wait_seconds request_data / 2).
Proof.
  cbv zeta. intros Htr Hs Hid Hall.
  pose proof (create_task_id_present c task_id Hs Hid) as Hv.
  destruct (create_event_polls _ _ _ (GetResponse c) _ task_id Htr Hv)
    as (gs & res & Hrun & -> & Hf).
  assert (Hp : Forall pending gs).
  { apply Forall_forall. intros g Hin. apply not_completed_pending.
    apply (Hall (status_url task_id)). now apply in_polls. }
  destruct (poll_run_all_pending _ _ _ Hrun Hp) as [-> Hlen].
  split; [exact Hf|].
  destruct (generate_first request_data w) as (c' & rest' & Hc & _).
  rewrite Htr in Hc. injection Hc as -> _ _.
  rewrite Htr, count_status_cons, create_url_not_status, count_status_polls.
  exact Hlen.
Qed.

(** C7. Whatever the status value of a well-formed snapshot, as long as it
    is not the string ["completed"], the iteration neither returns nor
    raises: the loop goes on with the remaining attempts from the state the
    poll left, and falls through with no result once none remains. *)
Theorem other_status_keeps_polling
    (url : string) (interval : Z) (n : nat) (w : World) (tr : list event)
    (r : Response) (d : list (string * json)) (v : json) :
  fst (world_get url (world_sleep interval w)) = GetResponse r ->
  is_success (status_code r) = true ->
  resp_json r = Some (JObj d) ->
  dict_get d "status" = v ->
  v <> JStr "completed" ->
  check_status r = Value None
  /\ poll_loop url interval (S n) (w, tr)
     = poll_loop url interval n
         (snd (world_get url (world_sleep interval w)),
          tr ++ [ESleep interval; EGet url (GetResponse r)])
  /\ poll_loop url interval 1 (w, tr)
     = (Value None,
        (snd (world_get url (world_sleep interval w)),
         tr ++ [ESleep interval; EGet url (GetResponse r)])).
Proof.
  intros Hg Hs Hj Hv Hne. subst v.
  assert (Hc : check_status r = Value None).
  { rewrite (check_status_snapshot r d Hs Hj).
    apply json_eq_str_false in Hne. now rewrite Hne. }
  split; [exact Hc|]. split.
  - rewrite poll_loop_step. cbv zeta. rewrite Hg. cbn [verdict]. now rewrite Hc.
  - rewrite poll_loop_step. cbv zeta. rewrite Hg. cbn [verdict]. now rewrite Hc.
Qed.

(** C9. The two [HTTPException]s raised inside the [try] block, for a
    create body without [taskId] and for a completed snapshot without a
    video URL, are caught by the generic [except Exception] clause: the
    caller sees status 500 with the detail ["Internal error: "] followed by
    the rendering of the original exception, never the bare message. *)
Theorem http_exceptions_rewrapped (request_data : Text2VideoRequest) (w : World) :
  let run := generate_text_to_video request_data w in
  (forall u r data rest,
      snd run = EGet u (GetResponse r) :: rest ->
      is_success (status_code r) = true ->
      resp_json r = Some data ->
      py_in "taskId" data = Value false ->
      fst run
      = Raise 500 ("Internal error: "
                   ++ exn_str (HTTPException 500 "Failed to create video task"))%string
      /\ fst run <> Raise 500 "Failed to create video task")
  /\ (forall pre u r d post,
        snd run = pre ++ EGet u (GetResponse r) :: post ->
        is_status_call (EGet u (GetResponse r)) = true ->
        is_success (status_code r) = true ->
        resp_json r = Some (JObj d) ->
        dict_get d "status" = JStr "completed" ->
        truthy (dict_get d "videoUrl") = false ->
        fst run
        = Raise 500 ("Internal error: "
                     ++ exn_str (HTTPException 500 "Video URL missing"))%string
        /\ fst run <> Raise 500 "Video URL missing").
Proof.
  cbv zeta. split.
  - intros u r data rest Htr Hs Hj Hin.
    assert (Hv : create_verdict (GetResponse r)
                 = Raised (HTTPException 500 "Failed to create video task")).
    { cbn [create_verdict]. unfold create_task_id, raise_for_status, json_of.
      now rewrite Hs, Hj; cbn [rbind]; rewrite Hin. }
    rewrite (create_event_decisive _ _ _ _ _ _ Htr Hv). cbn [fst handle].
    split; [reflexivity | discriminate].
  - intros pre u r d post Htr Hst Hs Hj Hc Hurl.
    assert (Hver : verdict (GetResponse r)
                   = Raised (HTTPException 500 "Video URL missing")).
    { cbn [verdict]. now rewrite (check_status_snapshot r d Hs Hj), Hc, Hurl. }
    destruct (status_event_decisive _ _ _ _ _ _ Htr Hst) as [Hf _].
    + unfold pending. rewrite Hver. discriminate.
    + rewrite Hf, Hver. cbn [finish handle]. split; [reflexivity | discriminate].
Qed.

(** C10. With [max_wait_seconds] below 2 the attempt count
    [max_wait_seconds // 2] is at most zero: the execution issues no status
    call and never sleeps, and when the create call yields a task
    identifier it returns the still-processing body with the create call
    as its only effect. *)
Theorem short_wait_no_polls (request_data : Text2VideoRequest) (w : World) :
  max_wait_seconds request_data < 2 ->
  let run := generate_text_to_video request_data w in
  max_wait_seconds request_data / 2 <= 0
  /\ count_status (snd run) = O
  /\ filter is_sleep (snd run) = []
  /\ (forall u c rest task_id,
        snd run = EGet u (GetResponse c) :: rest ->
        is_success (status_code c) = true ->
        task_identifier c = Some task_id ->
        run = (Return [("status", JStr "processing");
                       ("message", JStr "Video is still generating. Try again later.")],
               [EGet u (GetResponse c)])).
Proof.
  intros Hw. cbv zeta.
  assert (Hq : max_wait_seconds request_data / 2 <= 0).
  { apply Z.lt_succ_r. apply Z.div_lt_upper_bound; lia. }
  assert (Hn : Z.to_nat (max_wait_seconds request_data / 2) = O) by lia.
  split; [exact Hq|].
  destruct (generate_first request_data w) as (c & rest & Hc & H).
  destruct (create_verdict c) as [e | task_id] eqn:Hv.
  - rewrite H. cbn [snd]. rewrite count_status_cons, create_url_not_status.
    split; [reflexivity|]. split; [reflexivity|].
    intros u c0 rest0 tid [= <- -> <-] Hs Hid.
    cbn [create_verdict] in Hv.
    rewrite (create_task_id_present _ _ Hs Hid) in Hv. discriminate.
  - destruct H as (gs & res & Hrun & Hgen). rewrite Hn in Hrun.
    inversion Hrun; subst. rewrite Hgen. cbn [snd polls flat_map].
    rewrite count_status_cons, create_url_not_status.
    split; [reflexivity|]. split; [reflexivity|].
    intros u c0 rest0 tid [= <- -> <-] _ _. reflexivity.
Qed.

(** ** Further properties of the handler *)

(** A GET of the trace is the create call when it comes first and a status
    call otherwise. *)
Lemma get_event_position request_data w pre u g post :
  snd (generate_text_to_video request_data w) = pre ++ EGet u g :: post ->
  (pre = [] /\ u = create_url (prompt request_data))
  \/ (pre <> [] /\ is_status_call (EGet u g) = true).
Proof.
  intros Htr.
  destruct (generate_first request_data w) as (c & rest & Hc & H).
  destruct pre as [| x pre].
  - left. rewrite Hc in Htr. cbn [app] in Htr. injection Htr as <- _ _.
    split; reflexivity.
  - right. split; [discriminate|].
    destruct (create_verdict c) as [e | task_id].
    + rewrite H in Htr. cbn [snd app] in Htr. injection Htr as _ Htr.
      destruct pre; discriminate.
    + destruct H as (gs & res & _ & Hgen). rewrite Hgen in Htr.
      cbn [snd app] in Htr. injection Htr as _ Htr.
      destruct (polls_split _ _ _ _ _ _ _ Htr) as (_ & _ & _ & _ & _ & ->).
      apply status_url_is_status.
Qed.

(** An answer on which both the create step and the poll step raise the
    same exception ends the execution wherever it comes. *)
Lemma failing_get_decisive request_data w pre u g post e :
  snd (generate_text_to_video request_data w) = pre ++ EGet u g :: post ->
  create_verdict g = Raised e ->
  verdict g = Raised e ->
  fst (generate_text_to_video request_data w) = handle e /\ post = [].
Proof.
  intros Htr Hc Hv.
  destruct (get_event_position _ _ _ _ _ _ Htr) as [[-> _] | [_ Hst]].
  - cbn [app] in Htr.
    pose proof (create_event_decisive _ _ _ _ _ _ Htr Hc) as Hgen.
    rewrite Hgen in *. cbn [fst snd] in *. injection Htr as <-.
    split; reflexivity.
  - destruct (status_event_decisive _ _ _ _ _ _ Htr Hst) as [Hf ->].
    + unfold pending. rewrite Hv. discriminate.
    + rewrite Hf, Hv. split; reflexivity.
Qed.

(** A transport failure of any GET, the create call or a poll, reaches the
    caller as a 500 whose detail is ["Internal error: "] and the rendering
    of the failure, and no effect follows the failed call. *)
Theorem transport_failure_is_internal_error
    (request_data : Text2VideoRequest) (w : World)
    (pre post : list event) (u msg : string) :
  let run := generate_text_to_video request_data w in
  snd run = pre ++ EGet u (GetRaises msg) :: post ->
  fst run = Raise 500 ("Internal error: " ++ exn_str (RequestError msg))%string
  /\ post = [].
Proof.
  cbv zeta. intros Htr.
  apply (failing_get_decisive _ _ _ _ _ _ (RequestError msg) Htr); reflexivity.
Qed.

(** A response with a success status whose body is not JSON, [json()]
    raising, ends the execution with a 500 at the create call and at a poll
    alike: the detail is ["Internal error: "] and the message of the decode
    error of that very body, and nothing follows it. *)
Theorem undecodable_body_is_internal_error
    (request_data : Text2VideoRequest) (w : World)
    (pre post : list event) (u : string) (r : Response) :
  let run := generate_text_to_video request_data w in
  snd run = pre ++ EGet u (GetResponse r) :: post ->
  is_success (status_code r) = true ->
  resp_json r = None ->
  fst run = Raise 500 ("Internal error: " ++ exn_str (JSONDecodeError (text r)))%string
  /\ post = [].
Proof.
  cbv zeta. intros Htr Hs Hj.
  apply (failing_get_decisive _ _ _ _ _ _ (JSONDecodeError (text r)) Htr).
  - cbn [create_verdict]. unfold create_task_id, raise_for_status, json_of.
    now rewrite Hs, Hj.
  - cbn [verdict]. unfold check_status, raise_for_status, json_of.
    now rewrite Hs, Hj.
Qed.

(** A poll answered with JSON that is not an object (a list, a string, a
    number, [null]) has no [get]: the execution ends there with a 500 whose
    detail is ["Internal error: "] and the message of the [AttributeError]
    of that very value. *)
Theorem non_object_snapshot_is_internal_error
    (request_data : Text2VideoRequest) (w : World)
    (pre post : list event) (u : string) (r : Response) (data : json) :
  let run := generate_text_to_video request_data w in
  snd run = pre ++ EGet u (GetResponse r) :: post ->
  is_status_call (EGet u (GetResponse r)) = true ->
  is_success (status_code r) = true ->
  resp_json r = Some data ->
  (forall d, data <> JObj d) ->
  fst run = Raise 500 ("Internal error: " ++ exn_str (AttributeError data "get"))%string
  /\ post = [].
Proof.
  cbv zeta. intros Htr Hst Hs Hj Hno.
  assert (Hv : verdict (GetResponse r) = Raised (AttributeError data "get")).
  { cbn [verdict]. unfold check_status, raise_for_status, json_of.
    rewrite Hs, Hj. cbn [rbind].
    destruct data; try reflexivity. now destruct (Hno d). }
  destruct (status_event_decisive _ _ _ _ _ _ Htr Hst) as [Hf ->].
  - unfold pending. rewrite Hv. discriminate.
  - rewrite Hf, Hv. split; reflexivity.
Qed.

(** A create body that is not an object never yields a task identifier,
    even when the membership test passes (a list holding ["taskId"], a
    string containing it): unless the test answers no, the execution ends
    with the 500 of a [TypeError], not with the handler's own
    ["Failed to create video task"], and issues no status call. The
    [TypeError] is that of the subscript for a list or a string, and that of
    the membership test for every other value. *)
Theorem non_object_create_body_type_error
    (request_data : Text2VideoRequest) (w : World)
    (u : string) (r : Response) (rest : list event) (data : json) :
  let run := generate_text_to_video request_data w in
  snd run = EGet u (GetResponse r) :: rest ->
  is_success (status_code r) = true ->
  resp_json r = Some data ->
  (forall d, data <> JObj d) ->
  py_in "taskId" data <> Value false ->
  run = (Raise 500 ("Internal error: "
                    ++ exn_str (TypeError match data with
                                          | JStr _ | JArr _ => OpGetItem
                                          | _ => OpContains
                                          end data))%string,
         [EGet u (GetResponse r)]).
Proof.
  cbv zeta. intros Htr Hs Hj Hno Hin.
  assert (Hv : create_verdict (GetResponse r)
               = Raised (TypeError match data with
                                   | JStr _ | JArr _ => OpGetItem
                                   | _ => OpContains
                                   end data)).
  { cbn [create_verdict]. unfold create_task_id, raise_for_status, json_of.
    rewrite Hs, Hj. cbn [rbind].
    destruct data as [| b | z | f | s0 | l | d]; try reflexivity.
    - cbn [py_in rbind] in *. destruct (str_contains _ _); [reflexivity|].
      now destruct Hin.
    - cbn [py_in rbind] in *. destruct (existsb _ _); [reflexivity|].
      now destruct Hin.
    - now destruct (Hno d). }
  exact (create_event_decisive _ _ _ _ _ _ Htr Hv).
Qed.

(** The video URL of a completed snapshot is handed back as it came: any
    truthy JSON value, a string or not, is returned in the completed body,
    and the execution ends with that poll. *)
Theorem completed_returns_any_truthy_url
    (request_data : Text2VideoRequest) (w : World)
    (pre post : list event) (u : string) (r : Response)
    (d : list (string * json)) :
  let run := generate_text_to_video request_data w in
  snd run = pre ++ EGet u (GetResponse r) :: post ->
  is_status_call (EGet u (GetResponse r)) = true ->
  is_success (status_code r) = true ->
  resp_json r = Some (JObj d) ->
  dict_get d "status" = JStr "completed" ->
  truthy (dict_get d "videoUrl") = true ->
  fst run = Return [("status", JStr "completed"); ("video_url", dict_get d "videoUrl")]
  /\ post = [].
Proof.
  cbv zeta. intros Htr Hst Hs Hj Hc Hurl.
  assert (Hver : verdict (GetResponse r)
                 = Value (Some (completed_body (dict_get d "videoUrl")))).
  { cbn [verdict]. now rewrite (check_status_snapshot r d Hs Hj), Hc, Hurl. }
  destruct (status_event_decisive _ _ _ _ _ _ Htr Hst) as [Hf ->].
  - unfold pending. rewrite Hver. discriminate.
  - rewrite Hf, Hver. split; reflexivity.
Qed.

(** *** The trace as a whole *)

Lemma polls_cons url interval g gs :
  polls url interval (g :: gs) = ESleep interval :: EGet url g :: polls url interval gs.
Proof. reflexivity. Qed.

Lemma count_sleeps_cons e tr :
  count_sleeps (e :: tr) = if is_sleep e then S (count_sleeps tr) else count_sleeps tr.
Proof.
  unfold count_sleeps. cbn [filter]. now destruct (is_sleep e).
Qed.

Lemma count_other_gets_cons e tr :
  count_other_gets (e :: tr)
  = if negb (is_sleep e) && negb (is_status_call e)
    then S (count_other_gets tr) else count_other_gets tr.
Proof.
  unfold count_other_gets. cbn [filter].
  now destruct (negb (is_sleep e) && negb (is_status_call e)).
Qed.

Lemma total_sleep_cons e tr :
  total_sleep (e :: tr)
  = match e with
    | ESleep seconds => seconds + total_sleep tr
    | EGet _ _ => total_sleep tr
    end.
Proof. reflexivity. Qed.

(** Counting over a run of sleep-then-poll pairs on a status URL. *)
Lemma polls_counts url interval gs :
  (forall g, is_status_call (EGet url g) = true) ->
  count_status (polls url interval gs) = List.length gs
  /\ count_sleeps (polls url interval gs) = List.length gs
  /\ count_other_gets (polls url interval gs) = O
  /\ total_sleep (polls url interval gs) = interval * Z.of_nat (List.length gs)
  /\ List.length (polls url interval gs) = (2 * List.length gs)%nat.
Proof.
  intros Hu. induction gs as [| g gs (IH1 & IH2 & IH3 & IH4 & IH5)].
  - cbn. repeat split; lia.
  - rewrite polls_cons.
    rewrite !count_status_cons, !count_sleeps_cons, !count_other_gets_cons,
      !total_sleep_cons, Hu.
    cbn [is_sleep is_status_call negb andb List.length].
    rewrite IH1, IH2, IH3, IH4, IH5. repeat split; lia.
Qed.

Lemma trace_of_run request_data w :
  exists c url gs,
    snd (generate_text_to_video request_data w)
    = EGet (create_url (prompt request_data)) c :: polls url 2 gs
    /\ c = fst (world_get (create_url (prompt request_data)) w)
    /\ (forall g, is_status_call (EGet url g) = true)
    /\ (List.length gs <= Z.to_nat (max_wait_seconds request_data / 2))%nat
    /\ (fst (generate_text_to_video request_data w) = Return processing_body ->
        List.length gs = Z.to_nat (max_wait_seconds request_data / 2)).
Proof.
  pose proof (generate_run request_data w) as H. cbv zeta in H.
  set (c := fst (world_get (create_url (prompt request_data)) w)) in *.
  exists c. destruct (create_verdict c) as [e | task_id].
  - exists (status_url JNull), []. rewrite H. cbn [fst snd polls flat_map].
    repeat split.
    + intros g. apply status_url_is_status.
    + cbn [List.length]. lia.
    + destruct e; discriminate.
  - destruct H as (gs & res & Hrun & ->). exists (status_url task_id), gs.
    cbn [fst snd]. repeat split.
    + intros g. apply status_url_is_status.
    + now apply poll_run_length with res.
    + intros Hf. apply (finish_processing _ _ _ Hrun) in Hf. subst res.
      now apply poll_run_exhausted in Hrun.
Qed.

(** Every execution opens with exactly one create call, a GET on the base
    URL with the prompt appended as it is, and goes on in sleep-then-poll
    pairs only: no other GET is ever issued, there are as many sleeps as
    status calls, and the trace has one event more than twice its status
    calls. *)
Theorem trace_is_create_then_pairs (request_data : Text2VideoRequest) (w : World) :
  let tr := snd (generate_text_to_video request_data w) in
  hd_error tr
  = Some (EGet (VIDEO_API_BASE_URL ++ "?action=create&prompt=" ++ prompt request_data)%string
            (fst (world_get (create_url (prompt request_data)) w)))
  /\ count_other_gets tr = 1%nat
  /\ count_sleeps tr = count_status tr
  /\ List.length tr = (1 + 2 * count_status tr)%nat.
Proof.
  cbv zeta.
  destruct (trace_of_run request_data w) as (c & url & gs & -> & -> & Hu & _ & _).
  destruct (polls_counts url 2 gs Hu) as (H1 & H2 & H3 & _ & H5).
  split; [reflexivity|].
  rewrite count_other_gets_cons, count_sleeps_cons, count_status_cons,
    create_url_not_status.
  cbn [is_sleep negb andb List.length]. rewrite H1, H2, H3, H5.
  repeat split; lia.
Qed.

(** The time spent sleeping is two seconds per status call. It never
    exceeds a budget that is not negative, and an execution that ends in
    the still-processing answer has slept the budget rounded down to an even
    number: the odd second is never waited for. *)
Theorem sleep_within_budget (request_data : Text2VideoRequest) (w : World) :
  let run := generate_text_to_video request_data w in
  total_sleep (snd run) = 2 * Z.of_nat (count_status (snd run))
  /\ (0 <= max_wait_seconds request_data ->
      total_sleep (snd run) <= max_wait_seconds request_data)
  /\ (0 <= max_wait_seconds request_data ->
      fst run = Return processing_body ->
      total_sleep (snd run)
      = max_wait_seconds request_data - max_wait_seconds request_data mod 2)
  /\ (max_wait_seconds request_data < 0 -> total_sleep (snd run) = 0).
Proof.
  cbv zeta.
  destruct (trace_of_run request_data w) as (c & url & gs & Htr & _ & Hu & Hle & Hex).
  rewrite Htr.
  destruct (polls_counts url 2 gs Hu) as (H1 & _ & _ & H4 & _).
  assert (Hcount : count_status (EGet (create_url (prompt request_data)) c
                                 :: polls url 2 gs) = List.length gs).
  { now rewrite count_status_cons, create_url_not_status. }
  assert (Hsleep : total_sleep (EGet (create_url (prompt request_data)) c
                                :: polls url 2 gs) = 2 * Z.of_nat (List.length gs)).
  { now rewrite total_sleep_cons. }
  rewrite Hcount, Hsleep. split; [reflexivity|].
  pose proof (Z.div_mod (max_wait_seconds request_data) 2 ltac:(lia)) as Hdm.
  pose proof (Z.mod_pos_bound (max_wait_seconds request_data) 2 ltac:(lia)) as Hmod.
  repeat split.
  - intros Hw. lia.
  - intros Hw Hf. specialize (Hex Hf). lia.
  - intros Hw. lia.
Qed.

(** *** Reading an outcome backwards *)

Lemma create_task_id_value r t :
  create_task_id r = Value t ->
  is_success (status_code r) = true /\ task_identifier r = Some t.
Proof.
  unfold create_task_id, task_identifier, raise_for_status, json_of.
  destruct (is_success _); [|discriminate].
  destruct (resp_json r) as [[| b | z | f | s0 | l | d]|]; cbn; try discriminate.
  - destruct (str_contains _ _); discriminate.
  - destruct (existsb _ _); discriminate.
  - destruct (dict_lookup "taskId" d); cbn; [|discriminate].
    intros [= ->]. split; reflexivity.
Qed.

Lemma check_status_none r :
  check_status r = Value None -> not_completed_snapshot (GetResponse r).
Proof.
  intros H. unfold check_status, raise_for_status, json_of in H.
  destruct (is_success (status_code r)) eqn:Hs; [|discriminate].
  destruct (resp_json r) as [[| b | z | f | s0 | l | d]|] eqn:Hj; try discriminate.
  cbn [rbind py_get] in H.
  destruct (json_eq_str (dict_get d "status") "completed") eqn:Hc.
  - cbn [rbind] in H. destruct (truthy _); discriminate.
  - exists r, d. repeat split; try assumption. now apply json_eq_str_false.
Qed.

Lemma check_status_some_inv r b :
  check_status r = Value (Some b) ->
  is_success (status_code r) = true
  /\ exists d,
      resp_json r = Some (JObj d)
      /\ dict_get d "status" = JStr "completed"
      /\ truthy (dict_get d "videoUrl") = true
      /\ b = completed_body (dict_get d "videoUrl").
Proof.
  intros H. unfold check_status, raise_for_status, json_of in H.
  destruct (is_success (status_code r)) eqn:Hs; [|discriminate].
  destruct (resp_json r) as [[| b0 | z | f | s0 | l | d]|] eqn:Hj; try discriminate.
  cbn [rbind py_get] in H.
  destruct (json_eq_str (dict_get d "status") "completed") eqn:Hc; [|discriminate].
  cbn [rbind] in H. destruct (truthy (dict_get d "videoUrl")) eqn:Ht; [|discriminate].
  cbn in H. injection H as <-. split; [reflexivity|]. exists d.
  repeat split; try assumption. now apply json_eq_str_true.
Qed.

(** An exception of the poll step is the mirrored status error of that very
    response, or one that reaches the caller as a 500. *)
Lemma verdict_raised g e :
  verdict g = Raised e ->
  (exists r, g = GetResponse r /\ is_success (status_code r) = false
             /\ e = HTTPStatusError r)
  \/ internal e.
Proof.
  destruct g as [msg | r]; cbn [verdict].
  - intros [= <-]. right. reflexivity.
  - unfold check_status, raise_for_status, json_of.
    destruct (is_success (status_code r)) eqn:Hs.
    + destruct (resp_json r) as [[| b0 | z | f | s0 | l | d]|]; cbn [rbind py_get];
        try (intros [= <-]; right; reflexivity).
      destruct (json_eq_str _ _); [|discriminate]. cbn [rbind].
      destruct (truthy _); cbn; [discriminate|].
      intros [= <-]. right. reflexivity.
    + intros [= <-]. left. exists r. repeat split. exact Hs.
Qed.

Lemma create_verdict_raised g e :
  create_verdict g = Raised e ->
  (exists r, g = GetResponse r /\ is_success (status_code r) = false
             /\ e = HTTPStatusError r)
  \/ internal e.
Proof.
  destruct g as [msg | r]; cbn [create_verdict].
  - intros [= <-]. right. reflexivity.
  - unfold create_task_id, raise_for_status, json_of.
    destruct (is_success (status_code r)) eqn:Hs.
    + destruct (resp_json r) as [[| b0 | z | f | s0 | l | d]|]; cbn [rbind py_in];
        try (intros [= <-]; right; reflexivity).
      * destruct (str_contains _ _); cbn; intros [= <-]; right; reflexivity.
      * destruct (existsb _ _); cbn; intros [= <-]; right; reflexivity.
      * destruct (dict_lookup "taskId" d) eqn:Hl; cbn; rewrite ?Hl;
          [discriminate | intros [= <-]; right; reflexivity].
    + intros [= <-]. left. exists r. repeat split. exact Hs.
Qed.

(** A run that does not exhaust its attempts stops at its last answer. *)
Lemma poll_run_last n gs res :
  poll_run n gs res -> res <> Value None ->
  exists gs0 g, gs = gs0 ++ [g] /\ verdict g = res /\ Forall pending gs0.
Proof.
  induction 1 as [| n g gs res Hg Hrun IH | n g res Hg Hne]; intros Hres.
  - contradiction.
  - destruct (IH Hres) as (gs0 & g' & -> & Hv & Hall).
    exists (g :: gs0), g'. repeat split; [assumption | now constructor].
  - exists [], g. repeat split; [assumption | constructor].
Qed.

Lemma polls_snoc url interval gs g :
  polls url interval (gs ++ [g])
  = polls url interval gs ++ [ESleep interval; EGet url g].
Proof.
  unfold polls. rewrite flat_map_app. cbn. reflexivity.
Qed.

Lemma in_polls_inv url interval u g gs :
  In (EGet u g) (polls url interval gs) -> In g gs /\ u = url.
Proof.
  induction gs as [| g0 gs IH]; [contradiction|].
  rewrite polls_cons. intros [H | [H | H]].
  - discriminate.
  - injection H as <- <-. split; [now left | reflexivity].
  - destruct (IH H) as [Hin ->]. split; [now right | reflexivity].
Qed.

(** An execution polls only after a create call that gave a success status
    and a task identifier, and every poll goes to one and the same URL, the
    status URL of that identifier. *)
Theorem polls_target_the_created_task
    (request_data : Text2VideoRequest) (w : World)
    (pre post : list event) (u : string) (g : get_result) :
  let run := generate_text_to_video request_data w in
  snd run = pre ++ EGet u g :: post ->
  pre <> [] ->
  exists c rest task_id,
    snd run = EGet (create_url (prompt request_data)) (GetResponse c) :: rest
    /\ is_success (status_code c) = true
    /\ task_identifier c = Some task_id
    /\ u = (VIDEO_API_BASE_URL ++ "?action=status&taskId=" ++ py_str task_id)%string.
Proof.
  cbv zeta. intros Htr Hpre.
  destruct (generate_first request_data w) as (c & rest & Hc & H).
  destruct (create_verdict c) as [e | task_id] eqn:Hv.
  - rewrite H in Htr. cbn [snd] in Htr.
    destruct pre as [| x [| y pre]]; try discriminate. now destruct Hpre.
  - destruct c as [msg | c]; [discriminate|]. cbn [create_verdict] in Hv.
    destruct (create_task_id_value _ _ Hv) as [Hs Hid].
    destruct H as (gs & res & _ & Hgen).
    exists c, rest, task_id. repeat split; try assumption.
    rewrite Hgen in Htr. cbn [snd] in Htr.
    destruct pre as [| x pre]; [now destruct Hpre|].
    cbn [app] in Htr. injection Htr as _ Htr.
    now destruct (polls_split _ _ _ _ _ _ _ Htr) as (_ & _ & _ & _ & _ & ->).
Qed.

(** The still-processing answer is given only when the create call yielded
    a task identifier, all [max_wait_seconds // 2] polls were made, and each
    was answered with a well-formed snapshot whose status is not
    ["completed"]. *)
Theorem still_processing_only_after_all_polls
    (request_data : Text2VideoRequest) (w : World) :
  let run := generate_text_to_video request_data w in
  fst run = Return processing_body ->
  exists c rest task_id,
    snd run = EGet (create_url (prompt request_data)) (GetResponse c) :: rest
    /\ is_success (status_code c) = true
    /\ task_identifier c = Some task_id
    /\ count_status (snd run) = Z.to_nat (max_wait_seconds request_data / 2)
    /\ (forall u g, In (EGet u g) rest -> not_completed_snapshot g).
Proof.
  cbv zeta. intros Hf.
  destruct (generate_first request_data w) as (c & rest & Hc & H).
  destruct (create_verdict c) as [e | task_id] eqn:Hv.
  - rewrite H in Hf. cbn [fst] in Hf. destruct e; discriminate.
  - destruct c as [msg | c]; [discriminate|]. cbn [create_verdict] in Hv.
    destruct (create_task_id_value _ _ Hv) as [Hs Hid].
    destruct H as (gs & res & Hrun & Hgen).
    rewrite Hgen in Hf, Hc |- *. cbn [fst snd] in *. injection Hc as <-.
    apply (finish_processing _ _ _ Hrun) in Hf. subst res.
    destruct (poll_run_exhausted _ _ Hrun) as [Hlen Hall].
    exists c, (polls (status_url task_id) 2 gs), task_id.
    repeat split; try assumption.
    + now rewrite count_status_cons, create_url_not_status, count_status_polls.
    + intros u g Hin. apply in_polls_inv in Hin. destruct Hin as [Hin _].
      rewrite Forall_forall in Hall. specialize (Hall g Hin).
      unfold pending in Hall. destruct g as [msg | r]; [discriminate|].
      now apply check_status_none.
Qed.

(** Any body other than the still-processing one is the completed body of
    the last event of the execution: a status call answered with a success
    status, status ["completed"] and a truthy video URL, which the body
    carries. *)
Theorem completed_only_from_last_poll
    (request_data : Text2VideoRequest) (w : World) (b : body) :
  let run := generate_text_to_video request_data w in
  fst run = Return b ->
  b <> processing_body ->
  exists pre u r d,
    snd run = pre ++ [EGet u (GetResponse r)]
    /\ is_status_call (EGet u (GetResponse r)) = true
    /\ is_success (status_code r) = true
    /\ resp_json r = Some (JObj d)
    /\ dict_get d "status" = JStr "completed"
    /\ truthy (dict_get d "videoUrl") = true
    /\ b = [("status", JStr "completed"); ("video_url", dict_get d "videoUrl")].
Proof.
  cbv zeta. intros Hf Hb.
  destruct (generate_first request_data w) as (c & rest & _ & H).
  destruct (create_verdict c) as [e | task_id].
  - rewrite H in Hf. cbn [fst] in Hf. destruct e; discriminate.
  - destruct H as (gs & res & Hrun & Hgen). rewrite Hgen in Hf |- *.
    cbn [fst snd] in *.
    destruct res as [e | [b' | ]]; cbn [finish] in Hf.
    + destruct e; discriminate.
    + injection Hf as ->.
      destruct (poll_run_last _ _ _ Hrun) as (gs0 & g & -> & Hv & _); [discriminate|].
      destruct g as [msg | r]; [discriminate|]. cbn [verdict] in Hv.
      destruct (check_status_some_inv _ _ Hv) as (Hs & d & Hj & Hc & Ht & ->).
      exists (EGet (create_url (prompt request_data)) c
              :: polls (status_url task_id) 2 gs0 ++ [ESleep 2]),
        (status_url task_id), r, d.
      repeat split; try assumption.
      * rewrite polls_snoc. cbn [app]. rewrite <- app_assoc. reflexivity.
      * apply status_url_is_status.
    + injection Hf as <-. now destruct Hb.
Qed.

(** Every failure ends the execution right at a GET. The status code the
    caller sees is 500, with an ["Internal error: "] detail, unless that
    GET was answered with a non-success status, which is then mirrored
    with the external body. *)
Theorem failure_comes_from_last_get
    (request_data : Text2VideoRequest) (w : World) (code : Z) (detail : string) :
  let run := generate_text_to_video request_data w in
  fst run = Raise code detail ->
  exists pre u g,
    snd run = pre ++ [EGet u g]
    /\ ((exists r, g = GetResponse r
                   /\ is_success (status_code r) = false
                   /\ code = status_code r
                   /\ detail = ("External API error: " ++ text r)%string)
        \/ (code = 500
            /\ exists e, detail = ("Internal error: " ++ exn_str e)%string)).
Proof.
  cbv zeta. intros Hf.
  assert (Hhandle : forall g e,
             (exists r, g = GetResponse r /\ is_success (status_code r) = false
                        /\ e = HTTPStatusError r) \/ internal e ->
             handle e = Raise code detail ->
             (exists r, g = GetResponse r
                        /\ is_success (status_code r) = false
                        /\ code = status_code r
                        /\ detail = ("External API error: " ++ text r)%string)
             \/ (code = 500
                 /\ exists e, detail = ("Internal error: " ++ exn_str e)%string)).
  { intros g e [(r & -> & Hs & ->) | Hint] He.
    - left. exists r. cbn [handle] in He. injection He as <- <-.
      repeat split. exact Hs.
    - right. unfold internal in Hint. rewrite Hint in He. injection He as <- <-.
      split; [reflexivity | now exists e]. }
  destruct (generate_first request_data w) as (c & rest & _ & H).
  destruct (create_verdict c) as [e | task_id] eqn:Hv.
  - rewrite H in Hf |- *. cbn [fst snd] in *.
    exists [], (create_url (prompt request_data)), c. split; [reflexivity|].
    apply (Hhandle c e); [now apply create_verdict_raised | exact Hf].
  - destruct H as (gs & res & Hrun & Hgen). rewrite Hgen in Hf |- *.
    cbn [fst snd] in *.
    destruct res as [e | [b' | ]]; cbn [finish] in Hf; try discriminate.
    destruct (poll_run_last _ _ _ Hrun) as (gs0 & g & -> & Hg & _); [discriminate|].
    exists (EGet (create_url (prompt request_data)) c
            :: polls (status_url task_id) 2 gs0 ++ [ESleep 2]),
      (status_url task_id), g.
    split.
    + rewrite polls_snoc. cbn [app]. rewrite <- app_assoc. reflexivity.
    + apply (Hhandle g e); [now apply verdict_raised | exact Hf].
Qed.

(** *** The budget *)

(** The endpoint as a function of the number of attempts. *)
Lemma generate_unfold request_data w :
  generate_text_to_video request_data w =
  let curl := create_url (prompt request_data) in
  let c := fst (world_get curl w) in
  match create_verdict c with
  | Raised e => (handle e, [EGet curl c])
  | Value task_id =>
      let r := poll_loop (status_url task_id) 2
                 (Z.to_nat (max_wait_seconds request_data / 2))
                 (snd (world_get curl w), [EGet curl c]) in
      (finish (fst r), snd (snd r))
  end.
Proof.
  cbv zeta. unfold generate_text_to_video, try_block, bind, client_get, lift.
  destruct (world_get (create_url (prompt request_data)) w) as [c w1].
  cbn [fst snd app]. destruct c as [msg | r]; cbn [create_verdict]; [reflexivity|].
  destruct (create_task_id r) as [e | task_id]; [reflexivity|].
  destruct (poll_loop _ _ _ _) as [[e | [b | ]] [w' tr]]; reflexivity.
Qed.

(** More attempts only prolong a loop that ran out of them. *)
Lemma poll_loop_more url interval n m :
  forall st,
    poll_loop url interval (n + m) st
    = match poll_loop url interval n st with
      | (Value None, st') => poll_loop url interval m st'
      | other => other
      end.
Proof.
  induction n as [| n IH]; intros [w tr]; [reflexivity|].
  cbn [Nat.add]. rewrite !poll_loop_step. cbv zeta.
  destruct (verdict _) as [e | [b | ]]; [reflexivity | reflexivity | apply IH].
Qed.

(** The budget counts only through [max_wait_seconds // 2]: an odd budget
    behaves exactly as the even one below it, and every budget under 2,
    negative ones included, exactly as a budget of 0. *)
Theorem budget_counts_in_pairs (p : string) (w : World) :
  (forall k,
      generate_text_to_video {| prompt := p; max_wait_seconds := 2 * k + 1 |} w
      = generate_text_to_video {| prompt := p; max_wait_seconds := 2 * k |} w)
  /\ (forall b, b < 2 ->
         generate_text_to_video {| prompt := p; max_wait_seconds := b |} w
         = generate_text_to_video {| prompt := p; max_wait_seconds := 0 |} w).
Proof.
  split.
  - intros k. rewrite !generate_unfold. cbn [prompt max_wait_seconds].
    replace ((2 * k + 1) / 2) with (2 * k / 2); [reflexivity|].
    rewrite (Z.mul_comm 2 k), Z.div_add_l, Z.div_mul by lia.
    change (1 / 2) with 0. lia.
  - intros b Hb. rewrite !generate_unfold. cbn [prompt max_wait_seconds].
    assert (Hq : b / 2 <= 0) by (apply Z.lt_succ_r, Z.div_lt_upper_bound; lia).
    replace (Z.to_nat (b / 2)) with (Z.to_nat (0 / 2)); [reflexivity|].
    change (0 / 2) with 0. lia.
Qed.

(** Against the same service, a larger budget only prolongs an execution:
    its trace extends the trace of the smaller budget, and when the smaller
    budget already ended in a completed body or in a failure, the larger
    one gives the very same outcome and trace. *)
Theorem larger_budget_extends_run (p : string) (w : World) (b1 b2 : Z) :
  b1 <= b2 ->
  let run1 := generate_text_to_video {| prompt := p; max_wait_seconds := b1 |} w in
  let run2 := generate_text_to_video {| prompt := p; max_wait_seconds := b2 |} w in
  (exists more, snd run2 = snd run1 ++ more)
  /\ (fst run1 <> Return processing_body -> run2 = run1).
Proof.
  intros Hle. cbv zeta. rewrite !generate_unfold. cbn [prompt max_wait_seconds]. cbv zeta.
  destruct (create_verdict _) as [e | task_id].
  - split; [exists []; now rewrite app_nil_r | reflexivity].
  - assert (Hn : exists m, Z.to_nat (b2 / 2) = (Z.to_nat (b1 / 2) + m)%nat).
    { exists (Z.to_nat (b2 / 2) - Z.to_nat (b1 / 2))%nat.
      pose proof (Z.div_le_mono b1 b2 2 ltac:(lia) Hle). lia. }
    destruct Hn as [m ->]. rewrite poll_loop_more.
    set (st := (snd (world_get (create_url p) w),
                [EGet (create_url p) (fst (world_get (create_url p) w))])).
    destruct (poll_loop_run (status_url task_id) 2 (Z.to_nat (b1 / 2)) (fst st) (snd st))
      as (gs & w' & Hrun & Htr).
    change (fst st, snd st) with st in Hrun, Htr.
    destruct (poll_loop (status_url task_id) 2 (Z.to_nat (b1 / 2)) st)
      as [[e | [b | ]] st1]; cbn [fst snd] in *.
    + split; [exists []; now rewrite app_nil_r | reflexivity].
    + split; [exists []; now rewrite app_nil_r | reflexivity].
    + split; [| intros Hne; now destruct Hne].
      destruct st1 as [w1 tr1].
      destruct (poll_loop_run (status_url task_id) 2 m w1 tr1) as (gs' & w'' & _ & Htr').
      rewrite Htr'. cbn [snd]. now exists (polls (status_url task_id) 2 gs').
Qed.


End Handler.

(** ** The request model *)

(** C8, as the code has it. The model requires a prompt and nothing more:
    any string, the empty one included, and any integer, zero and negative
    ones included, are admitted, and an absent [max_wait_seconds] becomes
    60. *)
Theorem validate_admits_any_prompt_and_wait :
  (forall p w,
      Text2VideoRequest_validate {| raw_prompt := Some p; raw_max_wait_seconds := Some w |}
      = Some {| prompt := p; max_wait_seconds := w |})
  /\ (forall p,
         Text2VideoRequest_validate {| raw_prompt := Some p; raw_max_wait_seconds := None |}
         = Some {| prompt := p; max_wait_seconds := 60 |})
  /\ (forall mw,
         Text2VideoRequest_validate {| raw_prompt := None; raw_max_wait_seconds := mw |}
         = None).
Proof.
  repeat split.
Qed.

(** C8 fails as stated: an empty prompt with a zero or a negative
    [max_wait_seconds] is a valid request. *)
Lemma validate_admits_empty_prompt_nonpositive_wait :
  Text2VideoRequest_validate {| raw_prompt := Some ""; raw_max_wait_seconds := Some 0 |}
  = Some {| prompt := ""; max_wait_seconds := 0 |}
  /\ Text2VideoRequest_validate {| raw_prompt := Some ""; raw_max_wait_seconds := Some (-5) |}
     = Some {| prompt := ""; max_wait_seconds := -5 |}
  /\ ~ (forall raw req,
          Text2VideoRequest_validate raw = Some req ->
          prompt req <> "" /\ 0 < max_wait_seconds req).
Proof.
  split; [reflexivity|]. split; [reflexivity|].
  intros H.
  destruct (H {| raw_prompt := Some ""; raw_max_wait_seconds := Some 0 |} _ eq_refl)
    as [Hp _].
  now apply Hp.
Qed.

(** ** Scenarios

    A scripted service: the n-th GET is answered by the n-th entry of the
    script, and time changes nothing. The library functions are httpx's
    [is_success], Python's [str] on a task identifier, and [str] on an
    exception as Starlette, httpx and CPython word it. *)

Module Scenario.

Definition World : Type := list get_result.

Definition world_get (url : string) (w : World) : get_result * World :=
  match w with
  | [] => (GetRaises "All connection attempts failed", [])
  | g :: w' => (g, w')
  end.

Definition world_sleep (seconds : Z) (w : World) : World := w.

(** 2xx *)
Definition is_success (code : Z) : bool := (200 <=? code) && (code <=? 299).

(** [str(v)]: a string is itself, [None], the booleans and the integers as
    Python prints them; floats, lists and dicts are not rendered. *)
Definition py_str (v : json) : string :=
  match v with
  | JStr s => s
  | JNull => "None"
  | JBool true => "True"
  | JBool false => "False"
  | JInt z => NilZero.string_of_int (Z.to_int z)
  | _ => ""
  end.

(** [type(v).__name__] *)
Definition py_type_name (v : json) : string :=
  match v with
  | JNull => "NoneType"
  | JBool _ => "bool"
  | JInt _ => "int"
  | JFloat _ => "float"
  | JStr _ => "str"
  | JArr _ => "list"
  | JObj _ => "dict"
  end.

(** The document cannot even begin a JSON value: it is empty, or its first
    character is neither white space nor the first of a value. *)
Definition begins_no_value (doc : string) : bool :=
  match doc with
  | EmptyString => true
  | String c _ =>
      let n := nat_of_ascii c in
      negb (existsb (Nat.eqb n)
              [9; 10; 13; 32;                              (* white space *)
               34; 45; 91; 123;                            (* quote, minus, brackets *)
               48; 49; 50; 51; 52; 53; 54; 55; 56; 57;     (* digits *)
               116; 102; 110; 78; 73])%nat                 (* t f n N I *)
  end.

(** [str(e)]: Starlette's rendering of an [HTTPException], the message of
    a transport failure, and CPython's messages (as versions 3.11 to 3.13
    word them) for the interpreter's exceptions. Of the JSON decoder's
    messages only the one for a document that begins no value is rendered;
    an [HTTPStatusError] is never rendered by the handler. *)
Definition exn_str (e : exn) : string :=
  match e with
  | HTTPException code detail =>
      (NilZero.string_of_int (Z.to_int code) ++ ": " ++ detail)%string
  | RequestError msg => msg
  | JSONDecodeError doc =>
      if begins_no_value doc then "Expecting value: line 1 column 1 (char 0)" else ""
  | TypeError OpContains v =>
      ("argument of type '" ++ py_type_name v ++ "' is not iterable")%string
  | TypeError OpGetItem (JStr _) => "string indices must be integers, not 'str'"
  | TypeError OpGetItem (JArr _) => "list indices must be integers or slices, not str"
  | TypeError OpGetItem v =>
      ("'" ++ py_type_name v ++ "' object is not subscriptable")%string
  | AttributeError v attr =>
      ("'" ++ py_type_name v ++ "' object has no attribute '" ++ attr ++ "'")%string
  | KeyError key => ("'" ++ key ++ "'")%string
  | HTTPStatusError _ => ""
  end.

Definition run (request_data : Text2VideoRequest) (script : World)
  : outcome * list event :=
  generate_text_to_video World world_get world_sleep is_success py_str exn_str
    request_data script.

Definition dq : string := String "034"%char EmptyString.

(** The text of a flat JSON object with string values. *)
Fixpoint object_text_fields (fields : list (string * string)) : string :=
  match fields with
  | [] => ""
  | [(k, v)] => dq ++ k ++ dq ++ ": " ++ dq ++ v ++ dq
  | (k, v) :: rest =>
      dq ++ k ++ dq ++ ": " ++ dq ++ v ++ dq ++ ", " ++ object_text_fields rest
  end%string.

Definition ok_response (fields : list (string * string)) : Response :=
  {| status_code := 200;
     text := ("{" ++ object_text_fields fields ++ "}")%string;
     resp_json := Some (JObj (map (fun kv => (fst kv, JStr (snd kv))) fields)) |}.

Definition created : Response := ok_response [("taskId", "t-42")].
Definition snapshot_pending : Response := ok_response [("status", "pending")].
Definition snapshot_failed : Response := ok_response [("status", "failed")].
Definition snapshot_completed : Response :=
  ok_response [("status", "completed"); ("videoUrl", "https://example/v.mp4")].
Definition snapshot_completed_no_url : Response :=
  ok_response [("status", "completed")].
Definition created_without_id : Response := ok_response [("error", "quota")].
Definition unavailable : Response :=
  {| status_code := 503; text := "Service Unavailable"; resp_json := None |}.

Definition city : string := "A futuristic city with flying cars and neon lights".

Definition request (w : Z) : Text2VideoRequest :=
  {| prompt := city; max_wait_seconds := w |}.

Definition create_call (r : Response) : event :=
  EGet (VIDEO_API_BASE_URL ++ "?action=create&prompt=" ++ city)%string (GetResponse r).

Definition status_call (r : Response) : event :=
  EGet (VIDEO_API_BASE_URL ++ "?action=status&taskId=t-42")%string (GetResponse r).

Definition script_completes : World :=
  [GetResponse created; GetResponse snapshot_pending; GetResponse snapshot_completed].

Definition script_pending : World :=
  [GetResponse created; GetResponse snapshot_pending; GetResponse snapshot_failed].

Definition script_no_url : World :=
  [GetResponse created; GetResponse snapshot_completed_no_url].

Definition script_poll_unavailable : World :=
  [GetResponse created; GetResponse snapshot_pending; GetResponse unavailable].

Definition status_url_42 : string :=
  (VIDEO_API_BASE_URL ++ "?action=status&taskId=t-42")%string.

(** The end-to-end scenario of the specification: a budget of 4 seconds,
    the second poll completes. *)
Example second_poll_completes :
  run (request 4)
      [GetResponse created; GetResponse snapshot_pending; GetResponse snapshot_completed]
  = (Return [("status", JStr "completed"); ("video_url", JStr "https://example/v.mp4")],
     [create_call created;
      ESleep 2; status_call snapshot_pending;
      ESleep 2; status_call snapshot_completed]).
Proof. vm_compute. reflexivity. Qed.

Example both_polls_pending :
  run (request 4)
      [GetResponse created; GetResponse snapshot_pending; GetResponse snapshot_pending]
  = (Return [("status", JStr "processing");
             ("message", JStr "Video is still generating. Try again later.")],
     [create_call created;
      ESleep 2; status_call snapshot_pending;
      ESleep 2; status_call snapshot_pending]).
Proof. vm_compute. reflexivity. Qed.

(** An odd budget: 5 // 2 = 2 polls, the third answer is never asked for. *)
Example odd_budget_truncated :
  count_status
    (snd (run (request 5)
            [GetResponse created; GetResponse snapshot_pending;
             GetResponse snapshot_pending; GetResponse snapshot_completed]))
  = 2%nat.
Proof. vm_compute. reflexivity. Qed.

Example create_unavailable :
  run (request 60) [GetResponse unavailable]
  = (Raise 503 "External API error: Service Unavailable", [create_call unavailable]).
Proof. vm_compute. reflexivity. Qed.

Example create_without_task_id :
  run (request 60) [GetResponse created_without_id]
  = (Raise 500 "Internal error: 500: Failed to create video task",
     [create_call created_without_id]).
Proof. vm_compute. reflexivity. Qed.

Example negative_budget :
  run (request (-4)) [GetResponse created; GetResponse snapshot_completed]
  = (Return processing_body, [create_call created]).
Proof. vm_compute. reflexivity. Qed.

(** *** The claims at work on the scenarios *)

Lemma status_calls_bounded_witness :
  (count_status (snd (run (request 5) script_completes)) <= 2)%nat
  /\ (fst (run (request 4) script_pending) = Return processing_body ->
      count_status (snd (run (request 4) script_pending)) = 2%nat).
Proof.
  split.
  - exact (proj1 (status_calls_bounded World world_get world_sleep is_success
                    py_str exn_str (request 5) script_completes)).
  - exact (proj1 (proj2 (proj2 (status_calls_bounded World world_get world_sleep
                                  is_success py_str exn_str (request 4)
                                  script_pending)))).
Defined.

Lemma completed_returns_immediately_witness :
  fst (run (request 60) script_completes)
  = Return [("status", JStr "completed"); ("video_url", JStr "https://example/v.mp4")]
  /\ @nil event = [].
Proof.
  apply (completed_returns_immediately World world_get world_sleep is_success
           py_str exn_str (request 60) script_completes
           [create_call created; ESleep 2; status_call snapshot_pending; ESleep 2] []
           status_url_42 snapshot_completed
           [("status", JStr "completed"); ("videoUrl", JStr "https://example/v.mp4")]
           "https://example/v.mp4");
    [vm_compute; reflexivity | vm_compute; reflexivity | reflexivity | reflexivity
    | reflexivity | reflexivity | discriminate].
Defined.

Lemma missing_task_id_fails_witness :
  (exists detail,
      fst (run (request 60) [GetResponse created_without_id]) = Raise 500 detail)
  /\ @nil event = []
  /\ count_status (snd (run (request 60) [GetResponse created_without_id])) = O.
Proof.
  apply (missing_task_id_fails World world_get world_sleep is_success py_str exn_str
           (request 60) [GetResponse created_without_id]
           (VIDEO_API_BASE_URL ++ "?action=create&prompt=" ++ city)%string
           created_without_id []);
    [vm_compute; reflexivity | reflexivity | reflexivity].
Defined.

Lemma external_error_mirrored_witness :
  fst (run (request 60) script_poll_unavailable)
  = Raise 503 "External API error: Service Unavailable"
  /\ @nil event = [].
Proof.
  apply (external_error_mirrored World world_get world_sleep is_success py_str exn_str
           (request 60) script_poll_unavailable
           [create_call created; ESleep 2; status_call snapshot_pending; ESleep 2] []
           status_url_42 unavailable);
    [vm_compute; reflexivity | reflexivity].
Defined.

Lemma completed_without_url_fails_witness :
  (exists detail, fst (run (request 60) script_no_url) = Raise 500 detail)
  /\ (forall b, fst (run (request 60) script_no_url) <> Return b).
Proof.
  apply (completed_without_url_fails World world_get world_sleep is_success
           py_str exn_str (request 60) script_no_url
           [create_call created; ESleep 2] [] status_url_42 snapshot_completed_no_url
           [("status", JStr "completed")]);
    [vm_compute; reflexivity | vm_compute; reflexivity | reflexivity | reflexivity
    | reflexivity | left; reflexivity].
Defined.

Lemma exhausted_polls_still_processing_witness :
  fst (run (request 4) script_pending)
  = Return [("status", JStr "processing");
            ("message", JStr "Video is still generating. Try again later.")]
  /\ count_status (snd (run (request 4) script_pending)) = 2%nat.
Proof.
  apply (exhausted_polls_still_processing World world_get world_sleep is_success
           py_str exn_str (request 4) script_pending
           (VIDEO_API_BASE_URL ++ "?action=create&prompt=" ++ city)%string created
           [ESleep 2; status_call snapshot_pending; ESleep 2; status_call snapshot_failed]
           (JStr "t-42"));
    [vm_compute; reflexivity | reflexivity | reflexivity |].
  intros u g [H | [H | [H | [H | []]]]]; try discriminate H;
    injection H as _ <-.
  - exists snapshot_pending, [("status", JStr "pending")].
    repeat split; discriminate.
  - exists snapshot_failed, [("status", JStr "failed")].
    repeat split; discriminate.
Defined.

Lemma other_status_keeps_polling_witness :
  check_status is_success snapshot_failed = Value None
  /\ poll_loop World world_get world_sleep is_success status_url_42 2 2
       ([GetResponse snapshot_failed; GetResponse snapshot_completed], [])
     = poll_loop World world_get world_sleep is_success status_url_42 2 1
         ([GetResponse snapshot_completed],
          [ESleep 2; status_call snapshot_failed]).
Proof.
  destruct (other_status_keeps_polling World world_get world_sleep is_success
              status_url_42 2 1
              [GetResponse snapshot_failed; GetResponse snapshot_completed] []
              snapshot_failed [("status", JStr "failed")] (JStr "failed"))
    as (Hc & Hstep & _);
    [reflexivity | reflexivity | reflexivity | reflexivity | discriminate |].
  split; [exact Hc | exact Hstep].
Defined.

Lemma http_exceptions_rewrapped_witness :
  fst (run (request 60) [GetResponse created_without_id])
  = Raise 500 "Internal error: 500: Failed to create video task"
  /\ fst (run (request 60) script_no_url)
     = Raise 500 "Internal error: 500: Video URL missing".
Proof.
  split.
  - apply (proj1 (http_exceptions_rewrapped World world_get world_sleep is_success
                    py_str exn_str (request 60) [GetResponse created_without_id])
             (VIDEO_API_BASE_URL ++ "?action=create&prompt=" ++ city)%string
             created_without_id (JObj [("error", JStr "quota")]) []);
      [vm_compute; reflexivity | reflexivity | reflexivity | reflexivity].
  - apply (proj2 (http_exceptions_rewrapped World world_get world_sleep is_success
                    py_str exn_str (request 60) script_no_url)
             [create_call created; ESleep 2] status_url_42 snapshot_completed_no_url
             [("status", JStr "completed")] []);
      [vm_compute; reflexivity | vm_compute; reflexivity | reflexivity | reflexivity
      | reflexivity | reflexivity].
Defined.

Lemma short_wait_no_polls_witness :
  count_status (snd (run (request 1) script_completes)) = O
  /\ filter is_sleep (snd (run (request 1) script_completes)) = []
  /\ run (request 1) script_completes
     = (Return [("status", JStr "processing");
                ("message", JStr "Video is still generating. Try again later.")],
        [create_call created]).
Proof.
  destruct (short_wait_no_polls World world_get world_sleep is_success py_str exn_str
              (request 1) script_completes)
    as (_ & Hcount & Hsleep & Hret); [reflexivity|].
  split; [exact Hcount|]. split; [exact Hsleep|].
  apply (Hret (VIDEO_API_BASE_URL ++ "?action=create&prompt=" ++ city)%string
           created [] (JStr "t-42"));
    [vm_compute; reflexivity | reflexivity | reflexivity].
Defined.

(** *** Further scenarios *)

Definition html_page : Response :=
  {| status_code := 200; text := "<html>maintenance</html>"; resp_json := None |}.

Definition list_body : Response :=
  {| status_code := 200; text := "[]"; resp_json := Some (JArr []) |}.

(** a body that is the JSON list holding the string [taskId] *)
Definition list_with_task_id : Response :=
  {| status_code := 200; text := ("[" ++ dq ++ "taskId" ++ dq ++ "]")%string;
     resp_json := Some (JArr [JStr "taskId"]) |}.

(** a completed snapshot whose [videoUrl] is the number 7 *)
Definition snapshot_numeric_url : Response :=
  {| status_code := 200;
     text := ("{" ++ dq ++ "status" ++ dq ++ ": " ++ dq ++ "completed" ++ dq ++ ", "
              ++ dq ++ "videoUrl" ++ dq ++ ": 7}")%string;
     resp_json := Some (JObj [("status", JStr "completed"); ("videoUrl", JInt 7)]) |}.

Definition create_url_city : string :=
  (VIDEO_API_BASE_URL ++ "?action=create&prompt=" ++ city)%string.

Lemma transport_failure_is_internal_error_witness :
  fst (run (request 60) [GetResponse created; GetResponse snapshot_pending])
  = Raise 500 "Internal error: All connection attempts failed"
  /\ @nil event = [].
Proof.
  apply (transport_failure_is_internal_error World world_get world_sleep is_success
           py_str exn_str (request 60) [GetResponse created; GetResponse snapshot_pending]
           [create_call created; ESleep 2; status_call snapshot_pending; ESleep 2] []
           status_url_42 "All connection attempts failed").
  vm_compute. reflexivity.
Defined.

Lemma undecodable_body_is_internal_error_witness :
  fst (run (request 60) [GetResponse html_page])
  = Raise 500 "Internal error: Expecting value: line 1 column 1 (char 0)"
  /\ @nil event = [].
Proof.
  apply (undecodable_body_is_internal_error World world_get world_sleep is_success
           py_str exn_str (request 60) [GetResponse html_page] [] []
           create_url_city html_page);
    [vm_compute; reflexivity | reflexivity | reflexivity].
Defined.

Lemma non_object_snapshot_is_internal_error_witness :
  fst (run (request 60) [GetResponse created; GetResponse list_body])
  = Raise 500 "Internal error: 'list' object has no attribute 'get'"
  /\ @nil event = [].
Proof.
  apply (non_object_snapshot_is_internal_error World world_get world_sleep is_success
           py_str exn_str (request 60) [GetResponse created; GetResponse list_body]
           [create_call created; ESleep 2] [] status_url_42 list_body (JArr []));
    [vm_compute; reflexivity | vm_compute; reflexivity | reflexivity | reflexivity
    | discriminate].
Defined.

Lemma non_object_create_body_type_error_witness :
  run (request 60) [GetResponse list_with_task_id]
  = (Raise 500 "Internal error: list indices must be integers or slices, not str",
     [EGet create_url_city (GetResponse list_with_task_id)]).
Proof.
  apply (non_object_create_body_type_error World world_get world_sleep is_success
           py_str exn_str (request 60) [GetResponse list_with_task_id]
           create_url_city list_with_task_id [] (JArr [JStr "taskId"]));
    [vm_compute; reflexivity | reflexivity | reflexivity | discriminate
    | vm_compute; discriminate].
Defined.

Lemma completed_returns_any_truthy_url_witness :
  fst (run (request 60) [GetResponse created; GetResponse snapshot_numeric_url])
  = Return [("status", JStr "completed"); ("video_url", JInt 7)]
  /\ @nil event = [].
Proof.
  apply (completed_returns_any_truthy_url World world_get world_sleep is_success
           py_str exn_str (request 60)
           [GetResponse created; GetResponse snapshot_numeric_url]
           [create_call created; ESleep 2] [] status_url_42 snapshot_numeric_url
           [("status", JStr "completed"); ("videoUrl", JInt 7)]);
    [vm_compute; reflexivity | vm_compute; reflexivity | reflexivity | reflexivity
    | reflexivity | reflexivity].
Defined.

Lemma polls_target_the_created_task_witness :
  exists c rest task_id,
    snd (run (request 4) script_pending) = EGet create_url_city (GetResponse c) :: rest
    /\ is_success (status_code c) = true
    /\ task_identifier c = Some task_id
    /\ status_url_42
       = (VIDEO_API_BASE_URL ++ "?action=status&taskId=" ++ py_str task_id)%string.
Proof.
  apply (polls_target_the_created_task World world_get world_sleep is_success
           py_str exn_str (request 4) script_pending
           [create_call created; ESleep 2; status_call snapshot_pending; ESleep 2] []
           status_url_42 (GetResponse snapshot_failed));
    [vm_compute; reflexivity | discriminate].
Defined.

Lemma still_processing_only_after_all_polls_witness :
  exists c rest task_id,
    snd (run (request 4) script_pending) = EGet create_url_city (GetResponse c) :: rest
    /\ is_success (status_code c) = true
    /\ task_identifier c = Some task_id
    /\ count_status (snd (run (request 4) script_pending)) = 2%nat
    /\ (forall u g, In (EGet u g) rest -> not_completed_snapshot is_success g).
Proof.
  apply (still_processing_only_after_all_polls World world_get world_sleep is_success
           py_str exn_str (request 4) script_pending).
  vm_compute. reflexivity.
Defined.

Lemma completed_only_from_last_poll_witness :
  exists pre u r d,
    snd (run (request 60) script_completes) = pre ++ [EGet u (GetResponse r)]
    /\ is_status_call (EGet u (GetResponse r)) = true
    /\ is_success (status_code r) = true
    /\ resp_json r = Some (JObj d)
    /\ dict_get d "status" = JStr "completed"
    /\ truthy (dict_get d "videoUrl") = true
    /\ completed_body (JStr "https://example/v.mp4")
       = [("status", JStr "completed"); ("video_url", dict_get d "videoUrl")].
Proof.
  apply (completed_only_from_last_poll World world_get world_sleep is_success
           py_str exn_str (request 60) script_completes
           (completed_body (JStr "https://example/v.mp4")));
    [vm_compute; reflexivity | discriminate].
Defined.

Lemma failure_comes_from_last_get_witness :
  exists pre u g,
    snd (run (request 60) script_poll_unavailable) = pre ++ [EGet u g]
    /\ ((exists r, g = GetResponse r
                   /\ is_success (status_code r) = false
                   /\ 503 = status_code r
                   /\ "External API error: Service Unavailable"%string
                      = ("External API error: " ++ text r)%string)
        \/ (503 = 500
            /\ exists e, "External API error: Service Unavailable"%string
                         = ("Internal error: " ++ exn_str e)%string)).
Proof.
  apply (failure_comes_from_last_get World world_get world_sleep is_success
           py_str exn_str (request 60) script_poll_unavailable 503
           "External API error: Service Unavailable").
  vm_compute. reflexivity.
Defined.

Lemma larger_budget_extends_run_witness :
  (exists more,
      snd (run (request 60) script_completes)
      = snd (run (request 2) script_completes) ++ more)
  /\ (fst (run (request 4) script_completes) <> Return processing_body ->
      run (request 60) script_completes = run (request 4) script_completes).
Proof.
  split.
  - apply (larger_budget_extends_run World world_get world_sleep is_success
             py_str exn_str city script_completes 2 60). lia.
  - apply (larger_budget_extends_run World world_get world_sleep is_success
             py_str exn_str city script_completes 4 60). lia.
Defined.


End Scenario.
